(** * The deepstream daemon supervisor

    A shallow embedding of the daemon module of deepstream.io-service
    (the file that defines [start], [monitor] and [launch] and exports
    [start]).  The supervisor is a single-threaded Node.js program whose
    behaviour is a sequence of callbacks run by the event loop: the child's
    ['exit'] and ['data'] events, the two [setTimeout] callbacks, the three
    signal handlers and the process ['exit'] handler.  Each callback is
    embedded as a function on an explicit supervisor state; the event loop
    is a step function over the events of the environment.  The code
    attaches no ['error'] listener, so an ['error'] event, such as the one
    of a child that could not be spawned, ends the process through the
    ['exit'] handler.

    Numbers: [Date.now()] is an integer number of milliseconds ([Z]);
    the counters [attempts] and [starts] are integers ([Z]).  The delay
    [wait], the factor [growPercentage] and [restartDelay] are JavaScript
    numbers that the code multiplies: they are binary64 floating-point
    numbers, with the multiplication of IEEE 754 ([spec_float] and
    [SFmul] of the standard library).  The limits [maxRetries] and
    [maxRestarts] are only compared with the integer counters; they are
    held by their exact rational value ([Q]). *)

From Stdlib Require Import ZArith QArith Lia Lqa SpecFloat.
From stdpp Require Import base option list strings gmap pretty.

Open Scope Z_scope.

(** ** Numbers *)

(** A JavaScript number: a binary64 floating-point number of IEEE 754
    (53 bits of precision, exponents below 1024), with its two zeros, its
    two infinities and NaN. *)
Definition number : Type := spec_float.

(** [x * y], rounded to the nearest number, ties to even. *)
Definition fmul : number -> number -> number := SFmul 53 1024.

(** [x / y] *)
Definition fdiv : number -> number -> number := SFdiv 53 1024.

(** [x < y] *)
Definition flt : number -> number -> bool := SFltb.

(** The number that an integer literal denotes. *)
Definition num (z : Z) : number := binary_normalize 53 1024 z 0 false.

(** The number [0]. *)
Definition zero : number := S754_zero false.

(** The exact value of a number that is finite, as a fraction in lowest
    terms. *)
Definition rational (x : number) : option Q :=
  match x with
  | S754_zero _ => Some 0%Q
  | S754_finite s m e =>
      let v := if s then Z.neg m else Z.pos m in
      Some (if 0 <=? e then inject_Z (v * 2 ^ e)
            else Qred (Qmake v (Z.to_pos (2 ^ (- e)))))
  | S754_infinity _ | S754_nan => None
  end.

(** [g] multiplied [n] times into 1, from the left: [1 * g * ... * g]. *)
Fixpoint fpow (g : number) (n : nat) : number :=
  match n with
  | O => num 1
  | S n' => fmul (fpow g n') g
  end.

(** ** Options *)

(** A JavaScript value, as far as the option objects of this module hold
    them. *)
Inductive value :=
| VUndefined
| VBool (b : bool)
| VNum (x : number)
| VStr (s : string).

(** The option object seen by [start], read at the types the code uses its
    fields at.  [maxRestarts] has no default, so it may be [undefined]
    ([None]); every comparison with [undefined] is false. *)
Record Options := {
  name : string;
  exitOnError : bool;
  growPercentage : number;
  maxRetries : Q;
  restartDelay : number;
  maxRestarts : option Q;
  processExec : string;
}.

(** [const max = 6] *)
Definition max : Z := 6.

(** ** UTF-8, as used by [data.toString()] and [stream.write(string)]

    [Buffer.prototype.toString()] decodes the chunk as UTF-8, replacing
    every ill-formed subsequence by U+FFFD; [write] of a string encodes it
    as UTF-8 again.  A string is modelled by its list of Unicode scalar
    values; a chunk by its list of bytes ([Z] in [0, 256)). *)

Definition replacement : Z := 0xFFFD.

(** Decoder state: continuation bytes still needed, the code point
    accumulated so far, and the bounds allowed for the next byte. *)
Record dstate := {
  needed : nat;
  acc : Z;
  lower : Z;
  upper : Z;
}.

Definition dstate0 : dstate :=
  {| needed := 0; acc := 0; lower := 0x80; upper := 0xBF |}.

(** A byte met when no sequence is open. *)
Definition utf8_lead (b : Z) : list Z * dstate :=
  if (0 <=? b) && (b <=? 0x7F) then ([b], dstate0)
  else if (0xC2 <=? b) && (b <=? 0xDF) then
    ([], {| needed := 1; acc := b - 0xC0; lower := 0x80; upper := 0xBF |})
  else if (0xE0 <=? b) && (b <=? 0xEF) then
    ([], {| needed := 2; acc := b - 0xE0;
            lower := if b =? 0xE0 then 0xA0 else 0x80;
            upper := if b =? 0xED then 0x9F else 0xBF |})
  else if (0xF0 <=? b) && (b <=? 0xF4) then
    ([], {| needed := 3; acc := b - 0xF0;
            lower := if b =? 0xF0 then 0x90 else 0x80;
            upper := if b =? 0xF4 then 0x8F else 0xBF |})
  else ([replacement], dstate0).

(** One byte of input. *)
Definition utf8_step (d : dstate) (b : Z) : list Z * dstate :=
  match needed d with
  | O => utf8_lead b
  | S n =>
      if (lower d <=? b) && (b <=? upper d) then
        let cp := acc d * 64 + (b - 0x80) in
        match n with
        | O => ([cp], dstate0)
        | S _ => ([], {| needed := n; acc := cp; lower := 0x80; upper := 0xBF |})
        end
      else
        (* the open sequence is ill-formed; the byte is looked at again *)
        let '(out, d') := utf8_lead b in (replacement :: out, d')
  end.

Fixpoint utf8_decode_from (d : dstate) (bs : list Z) : list Z :=
  match bs with
  | [] => match needed d with O => [] | S _ => [replacement] end
  | b :: rest =>
      let '(out, d') := utf8_step d b in out ++ utf8_decode_from d' rest
  end.

(** [buffer.toString()] *)
Definition toString (data : list Z) : list Z := utf8_decode_from dstate0 data.

Definition utf8_encode_cp (c : Z) : list Z :=
  if c <? 0x80 then [c]
  else if c <? 0x800 then [0xC0 + c / 64; 0x80 + c mod 64]
  else if c <? 0x10000 then
    [0xE0 + c / 4096; 0x80 + (c / 64) mod 64; 0x80 + c mod 64]
  else
    [0xF0 + c / 262144; 0x80 + (c / 4096) mod 64;
     0x80 + (c / 64) mod 64; 0x80 + c mod 64].

(** The bytes that [stream.write(s)] puts on the stream. *)
Definition utf8_encode (s : list Z) : list Z := concat (map utf8_encode_cp s).


(** ** Supervisor state *)

(** A [ChildProcess] object.  [pid] is the own property that
    [delete child.pid] removes; [exit_listener] tells whether the ['exit']
    listener that [launch] installs is still attached; [running] tells
    whether the operating-system process has not terminated yet; [killed]
    is set once [kill()] has delivered its signal. *)
Record ChildProcess := {
  pid : option positive;
  exit_listener : bool;
  running : bool;
  killed : bool;
}.

Inductive timer_kind :=
| WindowReset   (* the timer armed by launch *)
| Relaunch.     (* the timer armed by monitor *)

(** A pending [setTimeout]. *)
Record timer := {
  kind : timer_kind;
  armed_at : Z;
  delay : number;
}.

Inductive stream := Stdout | Stderr.

(** What the supervisor does to the outside world, in the order it does
    it.  [ConsoleError] is a call of [console.error], which writes the
    message on the standard error stream; [TypeError] and [UnhandledError]
    are the reports that Node writes on the standard error stream for an
    exception that nothing catches. *)
Inductive effect :=
| Spawn (c : nat) (exec : string)
| SetTimeout (k : timer_kind) (d : number)
| ConsoleError (msg : string)
| StreamWrite (s : stream) (bytes : list Z)
| RemoveAllListeners (c : nat)
| Kill (c : nat)
| TypeError
| ProcessExit (status : Z)
| UnhandledError.

(** The variables of the closure of [start], the objects they refer to,
    the pending timers, and the log of effects.  [child] holds the index
    in [children] of the object the variable refers to ([None] is
    [null]).  [exited] is the exit status once the process is gone. *)
Record state := {
  startTime : option Z;
  attempts : Z;
  starts : Z;
  child : option nat;
  wait : number;
  children : list ChildProcess;
  timers : list timer;
  trace : list effect;
  exited : option Z;
}.

Definition set_startTime (v : option Z) (st : state) : state :=
  {| startTime := v; attempts := attempts st; starts := starts st;
     child := child st; wait := wait st; children := children st;
     timers := timers st; trace := trace st; exited := exited st |}.

Definition set_attempts (v : Z) (st : state) : state :=
  {| startTime := startTime st; attempts := v; starts := starts st;
     child := child st; wait := wait st; children := children st;
     timers := timers st; trace := trace st; exited := exited st |}.

Definition set_starts (v : Z) (st : state) : state :=
  {| startTime := startTime st; attempts := attempts st; starts := v;
     child := child st; wait := wait st; children := children st;
     timers := timers st; trace := trace st; exited := exited st |}.

Definition set_child (v : option nat) (st : state) : state :=
  {| startTime := startTime st; attempts := attempts st; starts := starts st;
     child := v; wait := wait st; children := children st;
     timers := timers st; trace := trace st; exited := exited st |}.

Definition set_wait (v : number) (st : state) : state :=
  {| startTime := startTime st; attempts := attempts st; starts := starts st;
     child := child st; wait := v; children := children st;
     timers := timers st; trace := trace st; exited := exited st |}.

Definition set_children (v : list ChildProcess) (st : state) : state :=
  {| startTime := startTime st; attempts := attempts st; starts := starts st;
     child := child st; wait := wait st; children := v;
     timers := timers st; trace := trace st; exited := exited st |}.

Definition set_timers (v : list timer) (st : state) : state :=
  {| startTime := startTime st; attempts := attempts st; starts := starts st;
     child := child st; wait := wait st; children := children st;
     timers := v; trace := trace st; exited := exited st |}.

Definition set_exited (v : option Z) (st : state) : state :=
  {| startTime := startTime st; attempts := attempts st; starts := starts st;
     child := child st; wait := wait st; children := children st;
     timers := timers st; trace := trace st; exited := v |}.

(** ** Commands *)

(** A callback body is a state transformer.  [process.exit] does not
    return: once [exited] is set, the statements that follow are not
    run. *)
Definition cmd := state -> state.

Definition seq (f g : cmd) : cmd :=
  fun st =>
    let st' := f st in
    match exited st' with
    | Some _ => st'
    | None => g st'
    end.

Notation "f >> g" := (seq f g) (at level 62, right associativity).

Definition emit (e : effect) : cmd :=
  fun st =>
    {| startTime := startTime st; attempts := attempts st; starts := starts st;
       child := child st; wait := wait st; children := children st;
       timers := timers st; trace := trace st ++ [e]; exited := exited st |}.

(** An uncaught exception ends the process with status 1. *)
Definition throw : cmd := fun st => set_exited (Some 1) (emit TypeError st).

(** What the calls below do to a [ChildProcess] object. *)
Definition detached (ch : ChildProcess) : ChildProcess :=
  {| pid := pid ch; exit_listener := false; running := running ch;
     killed := killed ch |}.

Definition signalled (ch : ChildProcess) : ChildProcess :=
  {| pid := pid ch; exit_listener := exit_listener ch; running := running ch;
     killed := if running ch then true else killed ch |}.

Definition without_pid (ch : ChildProcess) : ChildProcess :=
  {| pid := None; exit_listener := exit_listener ch; running := running ch;
     killed := killed ch |}.

(** [child.removeAllListeners('exit')] on the object at index [c]. *)
Definition removeAllListeners (c : nat) : cmd :=
  fun st =>
    set_children (alter detached c (children st))
      (emit (RemoveAllListeners c) st).

(** [child.kill()] on the object at index [c]: the default signal is
    delivered when the process still runs. *)
Definition kill (c : nat) : cmd :=
  fun st =>
    set_children (alter signalled c (children st)) (emit (Kill c) st).

(** The listener of the process ['exit'] event:
    [child.removeAllListeners('exit'); if (child) { child.kill() }]. *)
Definition on_process_exit : cmd :=
  fun st =>
    match child st with
    | None => emit TypeError st
    | Some c => kill c (removeAllListeners c st)
    end.

(** [process.exit(code)]: the ['exit'] listeners run, then the process
    ends with [code], or with 0 when no code is given. *)
Definition process_exit (code : option Z) : cmd :=
  fun st =>
    let status := default 0 code in
    set_exited (Some status) (emit (ProcessExit status) (on_process_exit st)).

(** [setTimeout(callback, d)] called at time [now]. *)
Definition setTimeout (k : timer_kind) (now : Z) (d : number) : cmd :=
  fun st =>
    set_timers (timers st ++ [{| kind := k; armed_at := now; delay := d |}])
      (emit (SetTimeout k d) st).

(** An ['error'] event that has no listener: [emit] throws the error and
    nothing catches it, so Node reports it on the standard error stream,
    runs the ['exit'] listeners and ends the process with status 1. *)
Definition unhandled_error : cmd :=
  fun st => process_exit (Some 1) (emit UnhandledError st).

(** [delete child.pid] *)
Definition delete_child_pid : cmd :=
  fun st =>
    match child st with
    | None => throw st
    | Some c => set_children (alter without_pid c (children st)) st
    end.

(** The value of [child.pid] ([None] is [undefined]). *)
Definition child_pid (st : state) : option positive :=
  c ← child st; ch ← children st !! c; pid ch.

(** ** The callbacks of [start] *)

(** How a template literal prints an exit code ([None] is [null]). *)
Definition code_string (code : option Z) : string :=
  match code with
  | Some n => pretty n
  | None => "null"
  end.

(** [code !== 0] *)
Definition code_nonzero (code : option Z) : bool :=
  match code with
  | Some n => negb (n =? 0)
  | None => true
  end.

(** [!child.pid]: a removed property reads as [undefined]; a process id is
    a positive number. *)
Definition no_pid (st : state) : bool :=
  match child_pid st with
  | Some _ => false
  | None => true
  end.

Section Supervisor.

Variable options : Options.

(** [starts >= options.maxRetries] *)
Definition starts_reached (st : state) : bool :=
  Qle_bool (maxRetries options) (inject_Z (starts st)).

(** [(Date.now() - (max * 1000) - startTime) > 0]; [null] counts
    as 0 in a subtraction. *)
Definition window_over (now : Z) (st : state) : bool :=
  0 <? now - max * 1000 - default 0 (startTime st).

(** [attempts > options.maxRestarts && options.maxRestarts >= 0] *)
Definition restarts_exceeded (st : state) : bool :=
  match maxRestarts options with
  | Some m => negb (Qle_bool (inject_Z (attempts st)) m) && Qle_bool 0 m
  | None => false
  end.

Definition too_many_restarts : string :=
  "Too many restarts within the last " +:+ pretty max +:+
  " seconds. Please check the script.".

Definition will_not_restart : string :=
  name options +:+
  " will not be restarted because the maximum number of total restarts has been exceeded.".

Definition exited_with (code : option Z) : string :=
  name options +:+ " exited with error code " +:+ code_string code.

(** [child = spawn(options.processExec, ...)]: a new [ChildProcess]
    object, with the ['data'] and ['exit'] listeners of [launch]
    attached, is assigned to [child].  [spawn] returns before the
    operating system has answered: the object counts as running until its
    ['exit'] event, or until the ['error'] event that tells that the
    process could not be spawned ([SpawnFailed] below). *)
Definition spawn : cmd :=
  fun st =>
    let c := length (children st) in
    set_child (Some c)
      (set_children
         (children st ++
            [{| pid := Some (Pos.of_succ_nat c); exit_listener := true;
                running := true; killed := false |}])
         (emit (Spawn c (processExec options)) st)).

(** [launch] *)
Definition launch (now : Z) : cmd :=
  (fun st =>
     match startTime st with
     | None =>
         (set_startTime (Some now) >>
          setTimeout WindowReset now (num (max * 1000 + 1))) st
     | Some _ => st
     end) >>
  (fun st => set_starts (starts st + 1) st) >>
  spawn.

(** The callback of the timer armed by [launch]. *)
Definition window_reset : cmd :=
  set_startTime None >> set_starts 0.

(** The callback of the timer armed by [monitor]. *)
Definition relaunch (now : Z) : cmd :=
  (fun st => set_wait (fmul (wait st) (growPercentage options)) st) >>
  (fun st => set_attempts (attempts st + 1) st) >>
  (fun st =>
     if restarts_exceeded st then
       (emit (ConsoleError will_not_restart) >> process_exit None) st
     else launch now st).

(** The branch of [monitor] taken when [child.pid] is gone: the
    restart-storm guard, then the timer of the next launch. *)
Definition schedule_restart (now : Z) : cmd :=
  (fun st =>
     if starts_reached st then
       if window_over now st then
         (emit (ConsoleError too_many_restarts) >>
          process_exit (Some 1)) st
       else st
     else st) >>
  (fun st => setTimeout Relaunch now (wait st) st).

(** The other branch of [monitor]. *)
Definition stability_reset : cmd :=
  set_attempts 0 >> set_wait (fmul (restartDelay options) (num 1000)).

(** [monitor] *)
Definition monitor (now : Z) : cmd :=
  fun st =>
    match child st with
    | None => throw st
    | Some _ =>
        if no_pid st then schedule_restart now st
        else stability_reset st
    end.

(** The ['exit'] listener that [launch] attaches to the child. *)
Definition on_child_exit (now : Z) (code : option Z) : cmd :=
  (fun st =>
     if code_nonzero code && exitOnError options then
       (emit (ConsoleError (exited_with code)) >> process_exit None) st
     else st) >>
  delete_child_pid >>
  monitor now.

(** The ['data'] listeners that [launch] attaches to [child.stdout] and
    [child.stderr]: [process.stdout.write(data.toString())]. *)
Definition on_child_data (s : stream) (data : list Z) : cmd :=
  emit (StreamWrite s (utf8_encode (toString data))).

(** The listeners of SIGTERM, SIGHUP and SIGINT:
    [child.removeAllListeners('exit'); child.kill()].  A signal that has a
    listener no longer ends a Node process by itself, so the process goes
    on after the listener has returned. *)
Definition on_signal : cmd :=
  fun st =>
    match child st with
    | None => throw st
    | Some c => kill c (removeAllListeners c st)
    end.

(** ** The event loop *)

Inductive signal := SIGTERM | SIGHUP | SIGINT.

(** What the environment can make happen.  [ChildExit c code]: the
    process of the [c]-th child object ended ([code] is [None] when a
    signal ended it).  [ChildData c s data]: a chunk that child wrote on
    [s] is read; the streams of a child may still hold data when its
    ['exit'] event has been emitted.  [TimerFired i]: the [i]-th pending
    timer fires; the time at which it does is left to the environment, so
    what is proved of all runs holds for every schedule.  [LoopEmpty]:
    nothing is left to wait for, so Node ends the process, with
    status 0.  [SpawnFailed c]: the process of the [c]-th child object
    could not be spawned (the executable is missing, or may not be run),
    and the object emits ['error'].  [ErrorEvent]: any other ['error']
    event, of a stream of the supervisor or of a child (a closed pipe), or
    of a child object ([kill] failed).  The code attaches no ['error']
    listener, so both end the supervisor by [unhandled_error]. *)
Inductive event :=
| ChildExit (c : nat) (code : option Z)
| ChildData (c : nat) (s : stream) (data : list Z)
| TimerFired (i : nat)
| Signal (sg : signal)
| LoopEmpty
| SpawnFailed (c : nat)
| ErrorEvent.

(** The process of the [c]-th child object is gone. *)
Definition ended (ch : ChildProcess) : ChildProcess :=
  {| pid := pid ch; exit_listener := exit_listener ch; running := false;
     killed := killed ch |}.

Definition mark_ended (c : nat) : cmd :=
  fun st => set_children (alter ended c (children st)) st.

Definition idle (st : state) : bool :=
  match timers st with
  | [] => forallb (fun ch => negb (running ch)) (children st)
  | _ :: _ => false
  end.

(** One turn of the event loop at time [now].  An event that cannot
    happen in the state (a child that does not run, a timer that is not
    pending) changes nothing, and nothing happens once the process is
    gone. *)
Definition step (now : Z) (e : event) (st : state) : state :=
  match exited st with
  | Some _ => st
  | None =>
      match e with
      | ChildExit c code =>
          match children st !! c with
          | Some ch =>
              if running ch then
                if exit_listener ch then
                  (mark_ended c >> on_child_exit now code) st
                else mark_ended c st
              else st
          | None => st
          end
      | ChildData c s data =>
          match children st !! c with
          | Some _ => on_child_data s data st
          | None => st
          end
      | TimerFired i =>
          match timers st !! i with
          | Some t =>
              (set_timers (delete i (timers st)) >>
               match kind t with
               | WindowReset => window_reset
               | Relaunch => relaunch now
               end) st
          | None => st
          end
      | Signal _ => on_signal st
      | LoopEmpty => if idle st then process_exit None st else st
      | SpawnFailed c =>
          match children st !! c with
          | Some ch =>
              if running ch then (mark_ended c >> unhandled_error) st
              else st
          | None => st
          end
      | ErrorEvent => unhandled_error st
      end
  end.

(** The state when [start] is entered. *)
Definition init : state :=
  {| startTime := None; attempts := 0; starts := 0; child := None;
     wait := num 1; children := []; timers := []; trace := [];
     exited := None |}.

(** [start(options)] called at time [now]: the listeners are registered
    and [launch()] is called. *)
Definition start (now : Z) : state := launch now init.

(** The events of a run, each with the time it happens at. *)
Fixpoint run (evs : list (Z * event)) (st : state) : state :=
  match evs with
  | [] => st
  | (now, e) :: evs' => run evs' (step now e st)
  end.

End Supervisor.

(** ** The exported entry point *)

(** [Object.assign(target, source)]: the properties of [source] are
    written over those of [target]. *)
Definition Object_assign (target source : gmap string value)
  : gmap string value :=
  source ∪ target.

(** The number that the literal [0.25] denotes. *)
Definition quarter : number := fdiv (num 1) (num 4).

Definition defaults : gmap string value :=
  <["name" := VStr "deepstream"]>
  (<["exitOnError" := VBool false]>
  (<["growPercentage" := VNum quarter]>
  (<["maxRetries" := VNum (num 10)]>
  (<["restartDelay" := VNum (num 1)]> ∅)))).

(** [daemonOptions || {}] merged over the defaults. *)
Definition merged_options (daemonOptions : option (gmap string value))
  : gmap string value :=
  Object_assign defaults (default ∅ daemonOptions).

Definition str_field (o : gmap string value) (k : string) : option string :=
  match o !! k with
  | Some (VStr s) => Some s
  | _ => None
  end.

Definition bool_field (o : gmap string value) (k : string) : option bool :=
  match o !! k with
  | Some (VBool b) => Some b
  | _ => None
  end.

Definition num_field (o : gmap string value) (k : string)
  : option number :=
  match o !! k with
  | Some (VNum x) => Some x
  | _ => None
  end.

(** A limit: a number that is finite, by its exact value. *)
Definition limit_field (o : gmap string value) (k : string) : option Q :=
  match o !! k with
  | Some (VNum x) => rational x
  | _ => None
  end.

(** A limit that may be left out. *)
Definition opt_limit_field (o : gmap string value) (k : string)
  : option (option Q) :=
  match o !! k with
  | Some (VNum x) => q ← rational x; Some (Some q)
  | Some VUndefined | None => Some None
  | _ => None
  end.

(** The option object read at the types [start] uses its fields at;
    [None] when a field holds a value of another type, or a limit that is
    not finite. *)
Definition read_options (o : gmap string value) : option Options :=
  n ← str_field o "name";
  e ← bool_field o "exitOnError";
  g ← num_field o "growPercentage";
  r ← limit_field o "maxRetries";
  d ← num_field o "restartDelay";
  m ← opt_limit_field o "maxRestarts";
  p ← str_field o "processExec";
  Some {| name := n; exitOnError := e; growPercentage := g; maxRetries := r;
          restartDelay := d; maxRestarts := m; processExec := p |}.

(** [module.exports.start(daemonOptions)] called at time [now]. *)
Definition exports_start (daemonOptions : option (gmap string value))
    (now : Z) : option state :=
  o ← read_options (merged_options daemonOptions);
  Some (start o now).

(** ** Observations on a run *)

Definition is_spawn (e : effect) : bool :=
  match e with
  | Spawn _ _ => true
  | _ => false
  end.

(** How many times the child was launched. *)
Fixpoint launches (tr : list effect) : nat :=
  match tr with
  | [] => 0
  | e :: tr' => (if is_spawn e then 1 else 0) + launches tr'
  end.


(** The delays of the relaunch timers, in the order they were armed. *)
Fixpoint relaunch_delays (tr : list effect) : list number :=
  match tr with
  | [] => []
  | SetTimeout Relaunch d :: tr' => d :: relaunch_delays tr'
  | _ :: tr' => relaunch_delays tr'
  end.

Definition kind_eqb (a b : timer_kind) : bool :=
  match a, b with
  | WindowReset, WindowReset | Relaunch, Relaunch => true
  | _, _ => false
  end.

(** How many timers of a kind are pending. *)
Fixpoint pending (k : timer_kind) (l : list timer) : nat :=
  match l with
  | [] => 0
  | t :: l' => (if kind_eqb (kind t) k then 1 else 0) + pending k l'
  end.

(** ** One turn of the loop, case by case *)

(** The first two statements of the callback of the relaunch timer. *)
Definition bump (o : Options) : cmd :=
  fun st => set_attempts (attempts st + 1)
              (set_wait (fmul (wait st) (growPercentage o)) st).

(** The [i]-th pending timer is no longer pending. *)
Definition fired (i : nat) : cmd :=
  fun st => set_timers (delete i (timers st)) st.

(** The window part of [launch]. *)
Definition open_window (now : Z) : cmd :=
  fun st =>
    match startTime st with
    | None =>
        setTimeout WindowReset now (num (max * 1000 + 1))
          (set_startTime (Some now) st)
    | Some _ => st
    end.

(** The events that cannot happen in a state. *)
Definition ignored (st : state) (e : event) : Prop :=
  match e with
  | ChildExit c _ =>
      match children st !! c with
      | Some ch => running ch = false
      | None => True
      end
  | ChildData c _ _ => children st !! c = None
  | TimerFired i => timers st !! i = None
  | Signal _ => False
  | LoopEmpty => idle st = false
  | SpawnFailed c =>
      match children st !! c with
      | Some ch => running ch = false
      | None => True
      end
  | ErrorEvent => False
  end.

(** [turn o now st e st']: the paths through [step], one constructor for
    each, with the state each path ends in. *)
Inductive turn (o : Options) (now : Z) (st : state) : event -> state -> Prop :=
| turn_nothing e :
    exited st <> None \/ ignored st e ->
    turn o now st e st
| turn_exit_unheard c ch code :
    exited st = None -> children st !! c = Some ch ->
    running ch = true -> exit_listener ch = false ->
    turn o now st (ChildExit c code) (mark_ended c st)
| turn_exit_fatal c ch code :
    exited st = None -> children st !! c = Some ch ->
    running ch = true -> exit_listener ch = true ->
    code_nonzero code = true -> exitOnError o = true ->
    turn o now st (ChildExit c code)
      (process_exit None
         (emit (ConsoleError (exited_with o code)) (mark_ended c st)))
| turn_exit_null c ch code :
    exited st = None -> children st !! c = Some ch ->
    running ch = true -> exit_listener ch = true ->
    code_nonzero code && exitOnError o = false ->
    child st = None ->
    turn o now st (ChildExit c code) (throw (mark_ended c st))
| turn_exit_storm c ch code c0 :
    exited st = None -> children st !! c = Some ch ->
    running ch = true -> exit_listener ch = true ->
    code_nonzero code && exitOnError o = false ->
    child st = Some c0 ->
    starts_reached o st = true -> window_over now st = true ->
    turn o now st (ChildExit c code)
      (process_exit (Some 1)
         (emit (ConsoleError too_many_restarts)
            (delete_child_pid (mark_ended c st))))
| turn_exit_restart c ch code c0 :
    exited st = None -> children st !! c = Some ch ->
    running ch = true -> exit_listener ch = true ->
    code_nonzero code && exitOnError o = false ->
    child st = Some c0 ->
    starts_reached o st && window_over now st = false ->
    turn o now st (ChildExit c code)
      (setTimeout Relaunch now (wait st)
         (delete_child_pid (mark_ended c st)))
| turn_data c ch s data :
    exited st = None -> children st !! c = Some ch ->
    turn o now st (ChildData c s data) (on_child_data s data st)
| turn_window i t :
    exited st = None -> timers st !! i = Some t -> kind t = WindowReset ->
    turn o now st (TimerFired i)
      (set_starts 0 (set_startTime None (fired i st)))
| turn_stop i t :
    exited st = None -> timers st !! i = Some t -> kind t = Relaunch ->
    restarts_exceeded o (bump o st) = true ->
    turn o now st (TimerFired i)
      (process_exit None
         (emit (ConsoleError (will_not_restart o)) (bump o (fired i st))))
| turn_relaunch i t :
    exited st = None -> timers st !! i = Some t -> kind t = Relaunch ->
    restarts_exceeded o (bump o st) = false ->
    turn o now st (TimerFired i)
      (spawn o
         (set_starts (starts st + 1) (open_window now (bump o (fired i st)))))
| turn_signal sg c :
    exited st = None -> child st = Some c ->
    turn o now st (Signal sg) (kill c (removeAllListeners c st))
| turn_signal_null sg :
    exited st = None -> child st = None ->
    turn o now st (Signal sg) (throw st)
| turn_loop_empty :
    exited st = None -> idle st = true ->
    turn o now st LoopEmpty (process_exit None st)
| turn_spawn_failed c ch :
    exited st = None -> children st !! c = Some ch -> running ch = true ->
    turn o now st (SpawnFailed c)
      (process_exit (Some 1) (emit UnhandledError (mark_ended c st)))
| turn_error :
    exited st = None ->
    turn o now st ErrorEvent
      (process_exit (Some 1) (emit UnhandledError st)).

(** ** Invariants of a run *)

(** The process of the [c]-th child object runs. *)
Definition runs (l : list ChildProcess) (c : nat) : Prop :=
  exists ch, l !! c = Some ch /\ running ch = true.

(** The variable [child] refers to an object; a child process that runs is
    the one [child] refers to, and no relaunch timer is pending while it
    runs; at most one relaunch timer is pending. *)
Definition one_child (st : state) : Prop :=
  (exists c, child st = Some c /\ is_Some (children st !! c))
  /\ (forall c, runs (children st) c ->
                child st = Some c /\ pending Relaunch (timers st) = 0%nat)
  /\ (pending Relaunch (timers st) <= 1)%nat.


(** A window timer is pending exactly when [startTime] is set. *)
Definition window_armed (st : state) : Prop :=
  pending WindowReset (timers st) =
  match startTime st with
  | Some _ => 1%nat
  | None => 0%nat
  end.

(** [wait] is 1 multiplied [attempts] times by the factor; the relaunch
    timers armed so far are the ones that fired and the ones that are
    pending; and the [k]-th of them, counting from 0, was armed for 1
    multiplied [k] times by the factor. *)
Definition geometric (o : Options) (st : state) : Prop :=
  0 <= attempts st
  /\ wait st = fpow (growPercentage o) (Z.to_nat (attempts st))
  /\ length (relaunch_delays (trace st)) =
     (Z.to_nat (attempts st) + pending Relaunch (timers st))%nat
  /\ forall k d,
       relaunch_delays (trace st) !! k = Some d ->
       d = fpow (growPercentage o) k.

(** [starts] is 0 exactly when no window is open, and it counts launches. *)
Definition window_counts (st : state) : Prop :=
  match startTime st with
  | None => starts st = 0
  | Some _ => 1 <= starts st
  end
  /\ starts st <= Z.of_nat (launches (trace st)).

(** There is one child object for each launch, and [child] refers to the
    one launched last. *)
Definition newest_child (st : state) : Prop :=
  length (children st) = launches (trace st)
  /\ child st = Some (Nat.pred (length (children st)))
  /\ (0 < length (children st))%nat.

Definition stream_eqb (a b : stream) : bool :=
  match a, b with
  | Stdout, Stdout | Stderr, Stderr => true
  | _, _ => false
  end.

(** An effect that puts something on the stream [s] of the supervisor: a
    [write] of the ['data'] listeners, on the stream it names; and on the
    standard error stream also a call of [console.error] and the report of
    an exception that nothing catches. *)
Definition writes_on (s : stream) (e : effect) : bool :=
  match e with
  | StreamWrite s' _ => stream_eqb s' s
  | ConsoleError _ | TypeError | UnhandledError =>
      match s with
      | Stderr => true
      | Stdout => false
      end
  | _ => false
  end.

(** What is put on the stream [s], in order. *)
Fixpoint written (s : stream) (tr : list effect) : list effect :=
  match tr with
  | [] => []
  | e :: tr' => if writes_on s e then e :: written s tr' else written s tr'
  end.

(** What a turn forwards to the stream [s]: the chunk of a ['data'] event
    of a launched child on the stream of the same name, decoded and encoded
    again; nothing in any other turn. *)
Definition forwarded (s : stream) (e : event) (st : state) : list effect :=
  match exited st, e with
  | None, ChildData c s' data =>
      match children st !! c with
      | Some _ =>
          if stream_eqb s' s then [StreamWrite s' (utf8_encode (toString data))]
          else []
      | None => []
      end
  | _, _ => []
  end.

(** What a run forwards to the stream [s], turn after turn. *)
Fixpoint forwarded_run (o : Options) (s : stream) (evs : list (Z * event))
    (st : state) : list effect :=
  match evs with
  | [] => []
  | (now, e) :: evs' =>
      forwarded s e st ++ forwarded_run o s evs' (step o now e st)
  end.

(** What the supervisor itself may say, once, before it ends: the message
    of a [console.error], or the report of an error that nothing
    handles. *)
Definition last_words (l : list effect) : Prop :=
  l = [] \/ (exists msg, l = [ConsoleError msg]) \/ l = [UnhandledError].

(** The option object holds the values that [start] uses. *)
Definition reads (m : gmap string value) (o : Options) : Prop :=
  m !! "name" = Some (VStr (name o))
  /\ m !! "exitOnError" = Some (VBool (exitOnError o))
  /\ m !! "growPercentage" = Some (VNum (growPercentage o))
  /\ (exists x, m !! "maxRetries" = Some (VNum x)
                /\ rational x = Some (maxRetries o))
  /\ m !! "restartDelay" = Some (VNum (restartDelay o))
  /\ match maxRestarts o with
     | Some q => exists x, m !! "maxRestarts" = Some (VNum x)
                           /\ rational x = Some q
     | None => m !! "maxRestarts" = Some VUndefined
               \/ m !! "maxRestarts" = None
     end
  /\ m !! "processExec" = Some (VStr (processExec o)).

(** ** Configurations used in the examples *)

(** The defaults of the exported entry point, for the executable
    [/usr/bin/deepstream]. *)
Definition default_options : Options :=
  {| name := "deepstream"; exitOnError := false; growPercentage := quarter;
     maxRetries := 10; restartDelay := num 1; maxRestarts := None;
     processExec := "/usr/bin/deepstream" |}.

(** The same with [exitOnError: true]. *)
Definition strict_options : Options :=
  {| name := "deepstream"; exitOnError := true; growPercentage := quarter;
     maxRetries := 10; restartDelay := num 1; maxRestarts := None;
     processExec := "/usr/bin/deepstream" |}.

(** One start allowed in a window. *)
Definition storm_options : Options :=
  {| name := "deepstream"; exitOnError := false; growPercentage := quarter;
     maxRetries := 1; restartDelay := num 1; maxRestarts := None;
     processExec := "/usr/bin/deepstream" |}.

(** A base delay of 100 ms that doubles, and two restarts at most. *)
Definition backoff_options : Options :=
  {| name := "deepstream"; exitOnError := false; growPercentage := num 2;
     maxRetries := 10; restartDelay := fdiv (num 1) (num 10);
     maxRestarts := Some 2%Q;
     processExec := "/usr/bin/deepstream" |}.


(** The first child ends 10 ms after it was launched, and the second one
    is launched 1 ms later. *)
Definition restart_once : list (Z * event) :=
  [(10, ChildExit 0 (Some 1)); (11, TimerFired 1)].

(** The first child ends 10 ms after it was launched. *)
Definition crash_once : list (Z * event) := [(10, ChildExit 0 (Some 1))].


(** A child that ends at once every time it is launched, three times. *)
Definition crash_loop : list (Z * event) :=
  [(10, ChildExit 0 (Some 1)); (11, TimerFired 1);
   (20, ChildExit 1 (Some 1)); (22, TimerFired 1);
   (30, ChildExit 2 (Some 1)); (34, TimerFired 1)].

(** A child that ends as soon as it is launched, [n] times in a row, and
    is launched again 1 ms later each time: the [c]-th child object ends at
    time [t]. *)
Fixpoint crashes (n : nat) (c : nat) (t : Z) : list (Z * event) :=
  match n with
  | O => []
  | S n' =>
      (t, ChildExit c (Some 1)) :: (t + 1, TimerFired 1)
        :: crashes n' (S c) (t + 2)
  end.

(** * The service module

    The module that installs, removes and drives the service: the file that
    defines [setupSystemD], [setupSystemV], [deleteSystemD] and
    [deleteSystemV] and exports [add], [remove], [start], [stop], [status]
    and [restart], and the earlier file [service.js].  Its functions talk
    to the file system and to [child_process.exec] and answer through a
    callback; each one is embedded as the tree of the requests it makes,
    with one branch for each answer of the environment. *)

(** ** Values *)

(** A JavaScript value, as far as this module meets them.  [JNum] holds a
    whole number below 10^21 in absolute value, which is the range in
    which a template literal prints a number with all its digits; [JErr]
    holds an [Error] object, with its message. *)
Inductive jsval :=
| JUndefined
| JNull
| JBool (b : bool)
| JNum (n : Z)
| JStr (s : string)
| JArr (l : list jsval)
| JErr (e : string).

(** What [if (v)], [!v], [v || w] and [v && w] look at. *)
Definition truthy (v : jsval) : bool :=
  match v with
  | JUndefined | JNull => false
  | JBool b => b
  | JNum n => negb (n =? 0)
  | JStr EmptyString => false
  | JStr (String _ _) => true
  | JArr _ | JErr _ => true
  end.

(** [v || w] *)
Definition js_or (v w : jsval) : jsval := if truthy v then v else w.

(** [v && w] *)
Definition js_and (v w : jsval) : jsval := if truthy v then w else v.

Section Join.

Variable str : jsval -> string.
Variable sep : string.

(** An element of an array, as [join] prints it. *)
Definition elem_str (x : jsval) : string :=
  match x with
  | JUndefined | JNull => EmptyString
  | _ => str x
  end.

Fixpoint join_with (l : list jsval) : string :=
  match l with
  | [] => EmptyString
  | x :: r =>
      match r with
      | [] => elem_str x
      | _ :: _ => elem_str x +:+ sep +:+ join_with r
      end
  end.

End Join.

(** The string a template literal makes of a value. *)
Fixpoint toStr (v : jsval) : string :=
  match v with
  | JUndefined => "undefined"
  | JNull => "null"
  | JBool true => "true"
  | JBool false => "false"
  | JNum n => pretty n
  | JStr s => s
  | JArr l => join_with toStr "," l
  | JErr e =>
      match e with
      | EmptyString => "Error"
      | String _ _ => "Error: " +:+ e
      end
  end.

(** [array.join(sep)] *)
Definition join (sep : string) (l : list jsval) : string :=
  join_with toStr sep l.

(** [array.concat(v)]: the elements of an array are appended, any other
    value is appended as it is. *)
Definition concat1 (l : list jsval) (v : jsval) : list jsval :=
  match v with
  | JArr l' => l ++ l'
  | _ => l ++ [v]
  end.

(** [options.key] ([undefined] when the object has no such property). *)
Definition get (o : gmap string jsval) (k : string) : jsval :=
  default JUndefined (o !! k).

(** ** Requests and answers *)

(** What the callback of [exec] receives: [err] ([None] is [null]),
    [stdout] and [stderr]. *)
Record exec_result := {
  exec_err : option string;
  exec_stdout : string;
  exec_stderr : string;
}.

(** The error argument of a file-system or [exec] callback as a value. *)
Definition err_val (err : option string) : jsval :=
  match err with
  | Some e => JErr e
  | None => JNull
  end.

(** A function of the module: what it asks of the environment, and how it
    goes on for each answer.  [FsExistsSync] is [fs.existsSync], [FsExists]
    is [fs.exists], [FsUnlink] is [fs.unlink], [FsWriteFile] is
    [fs.writeFile], [FsChmod] is [fs.chmod], [ChildExec] is [exec];
    [Callback err res] calls the caller's callback; [Uncaught] is an
    exception nobody catches. *)
Inductive io :=
| Done
| Uncaught (error : string)
| FsExistsSync (path : string) (k : bool -> io)
| FsExists (path : string) (k : bool -> io)
| FsUnlink (path : string) (k : option string -> io)
| FsWriteFile (path data : string) (k : option string -> io)
| FsChmod (path mode : string) (k : option string -> io)
| ChildExec (cmd : string) (k : exec_result -> io)
| ConsoleLog (msg : string) (k : io)
| Callback (err res : jsval) (k : io).

(** What was done, with the answer it got. *)
Inductive action :=
| DidExistsSync (path : string) (answer : bool)
| DidExists (path : string) (answer : bool)
| DidUnlink (path : string) (err : option string)
| DidWriteFile (path data : string) (err : option string)
| DidChmod (path mode : string) (err : option string)
| DidExec (cmd : string) (r : exec_result)
| DidLog (msg : string)
| DidCallback (err res : jsval)
| DidThrow (error : string).

(** [behaves t tr]: [tr] is what a call does, from its first request to
    its end, for some answers of the environment. *)
Inductive behaves : io -> list action -> Prop :=
| behaves_done : behaves Done []
| behaves_uncaught error : behaves (Uncaught error) [DidThrow error]
| behaves_existsSync path k b tr :
    behaves (k b) tr ->
    behaves (FsExistsSync path k) (DidExistsSync path b :: tr)
| behaves_exists path k b tr :
    behaves (k b) tr -> behaves (FsExists path k) (DidExists path b :: tr)
| behaves_unlink path k err tr :
    behaves (k err) tr -> behaves (FsUnlink path k) (DidUnlink path err :: tr)
| behaves_writeFile path data k err tr :
    behaves (k err) tr ->
    behaves (FsWriteFile path data k) (DidWriteFile path data err :: tr)
| behaves_chmod path mode k err tr :
    behaves (k err) tr ->
    behaves (FsChmod path mode k) (DidChmod path mode err :: tr)
| behaves_exec cmd k r tr :
    behaves (k r) tr -> behaves (ChildExec cmd k) (DidExec cmd r :: tr)
| behaves_log msg k tr :
    behaves k tr -> behaves (ConsoleLog msg k) (DidLog msg :: tr)
| behaves_callback err res k tr :
    behaves k tr -> behaves (Callback err res k) (DidCallback err res :: tr).

(** The calls of the callback in a trace, with their arguments. *)
Fixpoint callbacks (tr : list action) : list (jsval * jsval) :=
  match tr with
  | [] => []
  | DidCallback err res :: tr' => (err, res) :: callbacks tr'
  | _ :: tr' => callbacks tr'
  end.

(** The requests of a trace that change something: [unlink], [writeFile],
    [chmod], [exec]. *)
Fixpoint changes (tr : list action) : list action :=
  match tr with
  | [] => []
  | a :: tr' =>
      match a with
      | DidUnlink _ _ | DidWriteFile _ _ _ | DidChmod _ _ _ | DidExec _ _ =>
          a :: changes tr'
      | _ => changes tr'
      end
  end.

(** The answers to [fs.existsSync]: what the host looks like. *)
Fixpoint probes (tr : list action) : list (string * bool) :=
  match tr with
  | [] => []
  | DidExistsSync path b :: tr' => (path, b) :: probes tr'
  | _ :: tr' => probes tr'
  end.

Definition unsupported : string :=
  "Only systemd and init.d services are currently supported.".

Module Service.

Section Templates.

(** The two template functions that the module requires from
    [./template/systemd] and [./template/initd]. *)
Variable systemdTemplate : gmap string jsval -> string.
Variable initdTemplate : gmap string jsval -> string.

(** [hasSystemD], with what the caller does with the answer. *)
Definition hasSystemD (k : bool -> io) : io :=
  FsExistsSync "/usr/lib/systemd/system"
    (fun b => if b then k true else FsExistsSync "/bin/systemctl" k).

(** [hasSystemV] *)
Definition hasSystemV (k : bool -> io) : io := FsExistsSync "/etc/init.d" k.

(** [deleteSystemD] *)
Definition deleteSystemD (name : string) : io :=
  let filepath := "/etc/systemd/system/" +:+ name +:+ ".service" in
  ConsoleLog ("Removing service on: " +:+ filepath)
    (FsExists filepath
       (fun exist =>
          if exist then
            FsUnlink filepath
              (fun err =>
                 match err with
                 | Some e => Callback (JErr e) JUndefined Done
                 | None =>
                     ConsoleLog "Running systemctl daemon-reload..."
                       (ChildExec "systemctl daemon-reload"
                          (fun r =>
                             Callback (err_val (exec_err r))
                               (JStr "SystemD service removed succesfully")
                               Done))
                 end)
          else
            Callback (JStr "Service doesn't exists, nothing to uninstall")
              JUndefined Done)).

(** The log file of a stream: [(options.logDir && `${options.logDir}/${name}-out.log`) || fallback]. *)
Definition log_file (o : gmap string jsval) (name suffix : string)
    (fallback : jsval) : jsval :=
  js_or
    (js_and (get o "logDir")
       (JStr (toStr (get o "logDir") +:+ "/" +:+ name +:+ suffix)))
    fallback.

(** [setupSystemD] *)
Definition setupSystemD (name : string) (options : gmap string jsval) : io :=
  let options := <["stdOut" := log_file options name "-out.log" JNull]> options in
  let options := <["stdErr" := log_file options name "-err.log" JNull]> options in
  let filepath := "/etc/systemd/system/" +:+ name +:+ ".service" in
  let script := systemdTemplate options in
  if truthy (get options "dryRun") then ConsoleLog script Done
  else
    ConsoleLog ("Installing service on: " +:+ filepath)
      (FsExists filepath
         (fun exist =>
            if negb exist then
              FsWriteFile filepath script
                (fun err =>
                   match err with
                   | Some e => Callback (JErr e) JUndefined Done
                   | None =>
                       FsChmod filepath "755"
                         (fun err =>
                            match err with
                            | Some e => Callback (JErr e) JUndefined Done
                            | None =>
                                ConsoleLog "Running systemctl daemon-reload..."
                                  (ChildExec "systemctl daemon-reload"
                                     (fun r =>
                                        Callback (err_val (exec_err r))
                                          (JStr "SystemD service registered succesfully")
                                          Done))
                            end)
                   end)
            else
              Callback (JStr "Service already exists, please uninstall first")
                JUndefined Done)).

(** [deleteSystemV] *)
Definition deleteSystemV (name : string) : io :=
  let filepath := "/etc/init.d/" +:+ name in
  ConsoleLog ("Removing service on: " +:+ filepath)
    (FsExists filepath
       (fun exist =>
          if exist then
            FsUnlink filepath
              (fun err =>
                 match err with
                 | Some e => Callback (JErr e) JUndefined Done
                 | None =>
                     Callback JNull (JStr "SystemD service removed succesfully")
                       Done
                 end)
          else
            Callback (JStr "Service doesn't exists, nothing to uninstall")
              JUndefined Done)).

(** [setupSystemV] *)
Definition setupSystemV (name : string) (options : gmap string jsval) : io :=
  let options :=
    <["stdOut" := log_file options name "-out.log" (JStr "/dev/null")]> options in
  let options :=
    <["stdErr" := log_file options name "-err.log" (JStr "&1")]> options in
  let script := initdTemplate options in
  if truthy (get options "dryRun") then ConsoleLog script Done
  else
    let filepath := "/etc/init.d/" +:+ name in
    ConsoleLog ("Installing service on: " +:+ filepath)
      (FsExists filepath
         (fun exist =>
            if negb exist then
              FsWriteFile filepath script
                (fun err =>
                   match err with
                   | Some e => Callback (JErr e) JUndefined Done
                   | None =>
                       FsChmod filepath "755"
                         (fun err =>
                            match err with
                            | Some e => Callback (JErr e) JUndefined Done
                            | None =>
                                Callback JNull
                                  (JStr "init.d service registered succesfully")
                                  Done
                            end)
                   end)
            else
              Callback (JStr "Service already exists, please uninstall first")
                JUndefined Done)).

(** The first part of [add]: the option object after the assignments,
    or [None] when [options.runLevels.join] is not a function. *)
Definition prepare (name : string) (options : gmap string jsval)
  : option (gmap string jsval) :=
  let options := <["name" := JStr name]> options in
  let options :=
    <["pidFile" := js_or (get options "pidFile")
                     (JStr ("/var/run/" +:+ name +:+ ".pid"))]> options in
  let options := <["exec" := get options "exec"]> options in
  let options :=
    <["logDir" := js_or (get options "logDir")
                    (JStr "/var/log/deepstream")]> options in
  let options :=
    <["user" := js_or (get options "user") (JStr "root")]> options in
  let options :=
    <["group" := js_or (get options "group") (JStr "root")]> options in
  options ←
    (if negb (truthy (get options "runLevels")) then
       Some (<["runLevels" :=
                 JStr (join " " [JNum 2; JNum 3; JNum 4; JNum 5])]> options)
     else
       match get options "runLevels" with
       | JArr l => Some (<["runLevels" := JStr (join " " l)]> options)
       | _ => None
       end);
  let options :=
    if negb (truthy (get options "programArgs")) then
      <["programArgs" := JArr []]> options
    else options in
  Some (<["deepstreamArgs" :=
            JStr (join " " (concat1 [JStr "daemon"]
                              (get options "programArgs")))]> options).

(** [module.exports.add] *)
Definition add (name : string) (options : gmap string jsval) : io :=
  match prepare name options with
  | None => Uncaught "TypeError: options.runLevels.join is not a function"
  | Some options =>
      hasSystemD
        (fun d =>
           if d then setupSystemD name options
           else
             hasSystemV
               (fun v =>
                  if v then setupSystemV name options
                  else Callback (JStr unsupported) JUndefined Done))
  end.

(** [module.exports.remove] *)
Definition remove (name : string) : io :=
  hasSystemD
    (fun d =>
       if d then deleteSystemD name
       else
         hasSystemV
           (fun v =>
              if v then deleteSystemV name
              else Callback (JStr unsupported) JUndefined Done)).

(** [hasSystemD() || hasSystemV()] *)
Definition hasService (k : bool -> io) : io :=
  hasSystemD (fun d => if d then k true else hasSystemV k).

(** The callback that [start], [stop], [status] and [restart] give to
    [exec]: [callback(err || stdErr, stdOut)]. *)
Definition report (r : exec_result) : io :=
  Callback (js_or (err_val (exec_err r)) (JStr (exec_stderr r)))
    (JStr (exec_stdout r)) Done.

(** [module.exports.start] *)
Definition start (name : string) : io :=
  hasService
    (fun ok =>
       if ok then ChildExec ("service " +:+ name +:+ " start") report
       else Callback (JStr unsupported) JUndefined Done).

(** [module.exports.stop] *)
Definition stop (name : string) : io :=
  hasService
    (fun ok =>
       if ok then ChildExec ("service " +:+ name +:+ " stop") report
       else Callback (JStr unsupported) JUndefined Done).

(** [module.exports.status] *)
Definition status (name : string) : io :=
  hasService
    (fun ok =>
       if ok then ChildExec ("service " +:+ name +:+ " status") report
       else Callback (JStr unsupported) JUndefined Done).

(** [module.exports.restart] *)
Definition restart (name : string) : io :=
  hasService
    (fun ok =>
       if ok then ChildExec ("service " +:+ name +:+ " restart") report
       else Callback (JStr unsupported) JUndefined Done).

End Templates.

End Service.

(** ** The earlier file, [service.js] *)

Module ServiceJs.

Section Templates.

(** [Mustache.render], and the two templates that the module reads from
    [./template/systemd] and [./template/initd] when it is loaded. *)
Variable render : string -> gmap string jsval -> string.
Variable systemdTemplate : string.
Variable initdTemplate : string.

(** [hasSystemD] *)
Definition hasSystemD (k : bool -> io) : io :=
  FsExistsSync "/usr/lib/systemd/system"
    (fun b => if b then k true else FsExistsSync "/bin/systemctl" k).

(** [hasSystemV] *)
Definition hasSystemV (k : bool -> io) : io := FsExistsSync "/etc/init.d" k.

(** [deleteSystemD].  The file declares this function twice; the second
    declaration, the one below, replaces the first. *)
Definition deleteSystemD (name : string) : io :=
  let filepath := "/etc/init.d/" +:+ name in
  ConsoleLog ("Removing service on: " +:+ filepath)
    (FsExists filepath
       (fun exist =>
          if exist then
            FsUnlink filepath
              (fun err =>
                 match err with
                 | Some e => Callback (JErr e) JUndefined Done
                 | None =>
                     Callback JNull
                       (JStr "SystemD service registered succesfully") Done
                 end)
          else
            Callback (JStr "Service doesn't exists, nothing to uninstall")
              JUndefined Done)).

(** [setupSystemD], up to its [return]; [k] is what the caller does
    next. *)
Definition setupSystemD (name : string) (options : gmap string jsval)
    (k : io) : io :=
  let filepath := "/etc/systemd/system/" +:+ name +:+ ".service" in
  ConsoleLog ("Installing service on: " +:+ filepath)
    (ConsoleLog (render systemdTemplate options) k).

(** [setupSystemV], up to its [return]. *)
Definition setupSystemV (name : string) (options : gmap string jsval)
    (k : io) : io :=
  let options :=
    <["stdOut" := js_or (get options "stdOut") (JStr "/dev/null")]> options in
  let options :=
    <["errOut" := js_or (get options "errOut") (JStr "&1")]> options in
  ConsoleLog (render initdTemplate options) k.

(** The first part of [add]: the option object after the assignments,
    or [None] when [options.runLevels.join] is not a function. *)
Definition prepare (name : string) (options : gmap string jsval)
  : option (gmap string jsval) :=
  let options := <["name" := JStr name]> options in
  let options :=
    <["pidFile" := js_or (get options "pidFile")
                     (JStr ("/var/run/" +:+ name +:+ ".pid"))]> options in
  let options :=
    <["deepstreamExec" := js_or (get options "deepstreamExec")
                            (JStr "/usr/bin/deepstream")]> options in
  let options :=
    <["errOut" := js_or (get options "errOut")
                    (JStr ("/var/log/deepstream/" +:+ name +:+ "-err.log"))]>
      options in
  let options :=
    <["stdOut" := js_or (get options "stdOut")
                    (JStr ("/var/log/deepstream/" +:+ name +:+ "-log.log"))]>
      options in
  let options :=
    <["user" := js_or (get options "user") (JStr "root")]> options in
  let options :=
    <["group" := js_or (get options "group") (JStr "root")]> options in
  options ←
    (if negb (truthy (get options "runLevels")) then
       Some (<["runLevels" :=
                 JStr (join " " [JNum 2; JNum 3; JNum 4; JNum 5])]> options)
     else
       match get options "runLevels" with
       | JArr l => Some (<["runLevels" := JStr (join " " l)]> options)
       | _ => None
       end);
  let options :=
    if negb (truthy (get options "programArgs")) then
      <["programArgs" := JArr []]> options
    else options in
  Some (<["deepstreamArgs" :=
            JStr (join " " (concat1 [JStr "daemon"]
                              (get options "programArgs")))]> options).

(** [module.exports.add]: the tests of the init system are commented out,
    both set-up functions are called. *)
Definition add (name : string) (options : gmap string jsval) : io :=
  match prepare name options with
  | None => Uncaught "TypeError: options.runLevels.join is not a function"
  | Some options =>
      setupSystemD name options (setupSystemV name options Done)
  end.

(** [module.exports.remove]; the file declares no [deleteSystemV]. *)
Definition remove (name : string) : io :=
  hasSystemD
    (fun d =>
       if d then deleteSystemD name
       else
         hasSystemV
           (fun v =>
              if v then Uncaught "ReferenceError: deleteSystemV is not defined"
              else Callback (JStr unsupported) JUndefined Done)).

(** [module.exports.run] *)
Definition run (name : string) : io :=
  hasSystemD
    (fun d =>
       if d then Done
       else
         hasSystemV
           (fun v =>
              if v then Done
              else Callback (JStr unsupported) JUndefined Done)).

End Templates.

End ServiceJs.

(** ** Hosts *)

(** A host that answers every request in one way: [present] is what
    [fs.existsSync] and [fs.exists] answer for a path, [unlink_error],
    [writeFile_error] and [chmod_error] the error of [fs.unlink],
    [fs.writeFile] and [fs.chmod] on a path, [exec_answer] what a command
    gives. *)
Record host := {
  present : string -> bool;
  unlink_error : string -> option string;
  writeFile_error : string -> option string;
  chmod_error : string -> option string;
  exec_answer : string -> exec_result;
}.

(** What a call does on a host. *)
Fixpoint perform (h : host) (t : io) : list action :=
  match t with
  | Done => []
  | Uncaught error => [DidThrow error]
  | FsExistsSync path k =>
      DidExistsSync path (present h path) :: perform h (k (present h path))
  | FsExists path k =>
      DidExists path (present h path) :: perform h (k (present h path))
  | FsUnlink path k =>
      DidUnlink path (unlink_error h path)
        :: perform h (k (unlink_error h path))
  | FsWriteFile path data k =>
      DidWriteFile path data (writeFile_error h path)
        :: perform h (k (writeFile_error h path))
  | FsChmod path mode k =>
      DidChmod path mode (chmod_error h path)
        :: perform h (k (chmod_error h path))
  | ChildExec cmd k =>
      DidExec cmd (exec_answer h cmd) :: perform h (k (exec_answer h cmd))
  | ConsoleLog msg k => DidLog msg :: perform h k
  | Callback err res k => DidCallback err res :: perform h k
  end.

(** ** What the functions that drive the service do *)

Definition systemd_dir : string := "/usr/lib/systemd/system".
Definition systemctl : string := "/bin/systemctl".
Definition initd_dir : string := "/etc/init.d".

(** The tests of the init system, in their order: the second one is made
    when the first one fails, the third one when the second one fails. *)
Definition probed (tr : list action) : Prop :=
  probes tr = [(systemd_dir, true)]
  \/ probes tr = [(systemd_dir, false); (systemctl, true)]
  \/ exists b,
       probes tr = [(systemd_dir, false); (systemctl, false); (initd_dir, b)].

(** A call that runs [command] and hands its result to the callback, or
    that finds no init system. *)
Definition drives (command : string) (tr : list action) : Prop :=
  (exists r e,
      changes tr = [DidExec command r]
      /\ callbacks tr = [(e, JStr (exec_stdout r))]
      /\ (truthy e = false <->
          exec_err r = None /\ exec_stderr r = EmptyString)
      /\ (exec_err r = None -> e = JStr (exec_stderr r))
      /\ (forall m, exec_err r = Some m -> e = JErr m))
  \/ (changes tr = []
      /\ callbacks tr = [(JStr unsupported, JUndefined)]
      /\ probes tr =
         [(systemd_dir, false); (systemctl, false); (initd_dir, false)]).

(** ** Example hosts and options *)

Definition quiet : exec_result :=
  {| exec_err := None; exec_stdout := "ok"; exec_stderr := EmptyString |}.

(** A host with systemd, where nothing is installed and nothing fails. *)
Definition systemd_host : host :=
  {| present := fun path => String.eqb path "/usr/lib/systemd/system";
     unlink_error := fun _ => None;
     writeFile_error := fun _ => None;
     chmod_error := fun _ => None;
     exec_answer := fun _ => quiet |}.

(** A host with init.d only. *)
Definition sysv_host : host :=
  {| present := fun path => String.eqb path "/etc/init.d";
     unlink_error := fun _ => None;
     writeFile_error := fun _ => None;
     chmod_error := fun _ => None;
     exec_answer := fun _ => quiet |}.

(** A host with systemd where the unit file of [deepstream] is installed. *)
Definition installed_host : host :=
  {| present := fun path =>
       String.eqb path "/usr/lib/systemd/system"
       || String.eqb path "/etc/systemd/system/deepstream.service";
     unlink_error := fun _ => None;
     writeFile_error := fun _ => None;
     chmod_error := fun _ => None;
     exec_answer := fun _ => quiet |}.

(** A host with systemd where no file can be written. *)
Definition readonly_host : host :=
  {| present := fun path => String.eqb path "/usr/lib/systemd/system";
     unlink_error := fun _ => Some "EROFS";
     writeFile_error := fun _ => Some "EROFS";
     chmod_error := fun _ => Some "EROFS";
     exec_answer := fun _ => quiet |}.

(** A host with neither systemd nor init.d. *)
Definition bare_host : host :=
  {| present := fun _ => false;
     unlink_error := fun _ => None;
     writeFile_error := fun _ => None;
     chmod_error := fun _ => None;
     exec_answer := fun _ => quiet |}.

(** A template that prints the name and the arguments. *)
Definition example_template (o : gmap string jsval) : string :=
  toStr (get o "name") +:+ " " +:+ toStr (get o "deepstreamArgs").

Definition no_options : gmap string jsval := ∅.

Definition dry_options : gmap string jsval := {["dryRun" := JBool true]}.

Definition bad_options : gmap string jsval := {["runLevels" := JStr "2 3"]}.

(** * Properties *)

(** ** UTF-8 *)

Ltac Zify.zify_post_hook ::= Z.div_mod_to_equations.





(** ** Sequencing *)

Lemma seq_run (f g : cmd) (st : state) :
  exited (f st) = None -> (f >> g) st = g (f st).
Proof. unfold seq. intros ->. reflexivity. Qed.

Lemma seq_stop (f g : cmd) (st : state) (s : Z) :
  exited (f st) = Some s -> (f >> g) st = f st.
Proof. unfold seq. intros ->. reflexivity. Qed.

(** ** The pid is gone when monitor runs *)

Lemma no_pid_delete (st : state) : no_pid (delete_child_pid st) = true.
Proof.
  unfold no_pid, child_pid, delete_child_pid.
  destruct (child st) as [c|] eqn:Hc; cbn; rewrite Hc; cbn; [|reflexivity].
  rewrite list_lookup_alter_eq.
  destruct (children st !! c); reflexivity.
Qed.

Lemma exited_delete (st : state) (c : nat) :
  child st = Some c -> exited (delete_child_pid st) = exited st.
Proof. intros H. unfold delete_child_pid. rewrite H. reflexivity. Qed.

Lemma child_delete (st : state) : child (delete_child_pid st) = child st.
Proof. unfold delete_child_pid. destruct (child st) eqn:H; cbn; congruence. Qed.

Lemma monitor_after_delete (o : Options) (now : Z) (st : state) (c : nat) :
  child st = Some c ->
  monitor o now (delete_child_pid st) =
  schedule_restart o now (delete_child_pid st).
Proof.
  intros Hc. unfold monitor. rewrite child_delete, Hc, no_pid_delete.
  reflexivity.
Qed.

(** ** The paths through [step] *)

Lemma launch_eq (o : Options) (now : Z) (st : state) :
  exited st = None ->
  launch o now st =
  spawn o (set_starts (starts st + 1) (open_window now st)).
Proof.
  intros He. unfold launch, open_window, seq.
  destruct (startTime st); repeat (cbn; rewrite He); reflexivity.
Qed.

Lemma step_turn (o : Options) (now : Z) (e : event) (st : state) :
  turn o now st e (step o now e st).
Proof.
  unfold step. destruct (exited st) as [s|] eqn:He;
    [constructor; left; congruence|].
  destruct e as [c code|c s data|i|sg| |c|].
  - destruct (children st !! c) as [ch|] eqn:Hch;
      [|constructor; right; cbn; rewrite Hch; exact I].
    destruct (running ch) eqn:Hr;
      [|constructor; right; cbn; rewrite Hch; exact Hr].
    destruct (exit_listener ch) eqn:Hl;
      [|eapply turn_exit_unheard; eassumption].
    rewrite seq_run by exact He.
    unfold on_child_exit.
    destruct (code_nonzero code && exitOnError o) eqn:Hx.
    + rewrite (seq_stop _ _ _ 0)
        by (rewrite seq_run by exact He; reflexivity).
      apply andb_prop in Hx as [Hx1 Hx2].
      rewrite seq_run by exact He.
      eapply turn_exit_fatal; eassumption.
    + rewrite seq_run by exact He.
      destruct (child st) as [c0|] eqn:Hc.
      * rewrite seq_run
          by (rewrite (exited_delete _ c0); [exact He|exact Hc]).
        rewrite (monitor_after_delete _ _ _ c0) by exact Hc.
        unfold schedule_restart.
        assert (Hs : starts_reached o (delete_child_pid (mark_ended c st))
                     = starts_reached o st).
        { unfold starts_reached, delete_child_pid. cbn. rewrite Hc.
          reflexivity. }
        assert (Hw : window_over now (delete_child_pid (mark_ended c st))
                     = window_over now st).
        { unfold window_over, delete_child_pid. cbn. rewrite Hc.
          reflexivity. }
        assert (Hd : exited (delete_child_pid (mark_ended c st)) = None).
        { rewrite (exited_delete _ c0); [exact He|exact Hc]. }
        assert (Hwt : wait (delete_child_pid (mark_ended c st)) = wait st).
        { unfold delete_child_pid. cbn. rewrite Hc. reflexivity. }
        destruct (starts_reached o st) eqn:Hs';
          [destruct (window_over now st) eqn:Hw'|].
        -- rewrite (seq_stop _ _ _ 1)
             by (rewrite Hs, Hw, seq_run by exact Hd; reflexivity).
           rewrite Hs, Hw. rewrite seq_run by exact Hd.
           eapply turn_exit_storm; eassumption.
        -- rewrite seq_run by (rewrite Hs, Hw; exact Hd).
           rewrite Hs, Hw, Hwt.
           eapply turn_exit_restart; try eassumption.
           rewrite Hs', Hw'. reflexivity.
        -- rewrite seq_run by (rewrite Hs; exact Hd).
           rewrite Hs, Hwt.
           eapply turn_exit_restart; try eassumption.
           rewrite Hs'. reflexivity.
      * rewrite (seq_stop _ _ _ 1)
          by (unfold delete_child_pid; cbn; rewrite Hc; reflexivity).
        unfold delete_child_pid at 1. cbn [child mark_ended set_children].
        rewrite Hc. eapply turn_exit_null; eassumption.
  - destruct (children st !! c) as [ch|] eqn:Hch;
      [|constructor; right; exact Hch].
    eapply turn_data; eassumption.
  - destruct (timers st !! i) as [t|] eqn:Ht;
      [|constructor; right; exact Ht].
    rewrite seq_run by exact He. fold (fired i st).
    destruct (kind t) eqn:Hk.
    + unfold window_reset. rewrite seq_run by exact He.
      eapply turn_window; eassumption.
    + unfold relaunch. rewrite !seq_run by exact He.
      change (set_attempts _ _) with (bump o (fired i st)).
      assert (Hr : restarts_exceeded o (bump o (fired i st))
                   = restarts_exceeded o (bump o st)) by reflexivity.
      rewrite Hr.
      destruct (restarts_exceeded o (bump o st)) eqn:Hx.
      * eapply turn_stop; eassumption.
      * rewrite launch_eq by exact He.
        exact (turn_relaunch o now st i t He Ht Hk Hx).
  - unfold on_signal. destruct (child st) as [c|] eqn:Hc.
    + eapply turn_signal; eassumption.
    + eapply turn_signal_null; eassumption.
  - destruct (idle st) eqn:Hi; [|constructor; right; exact Hi].
    eapply turn_loop_empty; eassumption.
  - destruct (children st !! c) as [ch|] eqn:Hch;
      [|constructor; right; cbn; rewrite Hch; exact I].
    destruct (running ch) eqn:Hr;
      [|constructor; right; cbn; rewrite Hch; exact Hr].
    rewrite seq_run by exact He.
    eapply turn_spawn_failed; eassumption.
  - apply turn_error. exact He.
Qed.

(** ** Runs *)

(** A property that every turn keeps holds all along a run. *)
Lemma run_invariant (o : Options) (P : state -> Prop) :
  (forall now e st, P st -> P (step o now e st)) ->
  forall evs st, P st -> P (run o evs st).
Proof.
  intros Hstep evs. induction evs as [|[now e] evs IH]; intros st Hst.
  - exact Hst.
  - cbn. apply IH, Hstep, Hst.
Qed.

Lemma step_exited (o : Options) (now : Z) (e : event) (st : state) (s : Z) :
  exited st = Some s -> step o now e st = st.
Proof. unfold step. intros ->. reflexivity. Qed.

(** Nothing happens once the process is gone. *)
Lemma run_exited (o : Options) (evs : list (Z * event)) (st : state) (s : Z) :
  exited st = Some s -> run o evs st = st.
Proof.
  intros He. induction evs as [|[now e] evs IH]; [reflexivity|].
  cbn. rewrite (step_exited _ _ _ _ s) by exact He. exact IH.
Qed.

(** ** Counting *)

Lemma launches_app (a b : list effect) :
  launches (a ++ b) = (launches a + launches b)%nat.
Proof. induction a as [|e a IH]; cbn; [reflexivity|]. rewrite IH. lia. Qed.

Lemma relaunch_delays_app (a b : list effect) :
  relaunch_delays (a ++ b) = relaunch_delays a ++ relaunch_delays b.
Proof.
  induction a as [|e a IH]; cbn; [reflexivity|].
  destruct e as [| [|] | | | | | | |]; cbn; rewrite IH; reflexivity.
Qed.

Lemma pending_app (k : timer_kind) (a b : list timer) :
  pending k (a ++ b) = (pending k a + pending k b)%nat.
Proof. induction a as [|t a IH]; cbn; [reflexivity|]. rewrite IH. lia. Qed.

Lemma pending_delete (k : timer_kind) (l : list timer) (i : nat) (t : timer) :
  l !! i = Some t ->
  pending k l = ((if kind_eqb (kind t) k then 1 else 0) + pending k (delete i l))%nat.
Proof.
  revert i. induction l as [|t' l IH]; intros [|i] Ht; cbn in *;
    try discriminate.
  - injection Ht as ->. reflexivity.
  - rewrite (IH i Ht).
    destruct (kind_eqb (kind t') k), (kind_eqb (kind t) k); reflexivity.
Qed.

(** Computes a field of a state built by the commands. *)
Ltac project :=
  cbn [startTime attempts starts child wait children timers trace exited
       set_startTime set_attempts set_starts set_child set_wait set_children
       set_timers set_exited emit setTimeout removeAllListeners kill
       mark_ended spawn bump fired throw on_child_data default] in *.

(** Follows the branches on [child] and [startTime] that a final state of
    [turn] still holds, and computes the fields asked for. *)
Ltac fields :=
  unfold process_exit, on_process_exit, delete_child_pid, open_window;
  repeat (project;
          match goal with
          | H : child ?st = _ |- context [child ?st] => rewrite H
          | H : startTime ?st = _ |- context [startTime ?st] => rewrite H
          | |- context [match child ?st with _ => _ end] =>
              destruct (child st) eqn:?
          | |- context [match startTime ?st with _ => _ end] =>
              destruct (startTime st) eqn:?
          end);
  project.

(** Case analysis on the turn taken by [step]. *)
Ltac turn_cases o now e st :=
  generalize (step_turn o now e st); generalize (step o now e st);
  let st' := fresh "st'" in
  let T := fresh "T" in
  intros st' T; destruct T.

(** ** The lifetime cap *)

Ltac count_launches :=
  fields; rewrite ?launches_app; cbn [launches is_spawn];
  rewrite ?Nat.add_0_r.






(** The turn in which a relaunch timer fires. *)
Lemma step_relaunch (o : Options) (now : Z) (i : nat) (t : timer) (st : state) :
  exited st = None -> timers st !! i = Some t -> kind t = Relaunch ->
  step o now (TimerFired i) st =
  if restarts_exceeded o (bump o st) then
    process_exit None
      (emit (ConsoleError (will_not_restart o)) (bump o (fired i st)))
  else
    spawn o (set_starts (starts st + 1) (open_window now (bump o (fired i st)))).
Proof.
  intros He Ht Hk. generalize (step_turn o now (TimerFired i) st).
  generalize (step o now (TimerFired i) st). intros st' T.
  inversion T as [e [Hx|Hx]| | | | | | |j u ? Hu Hku|j u ? Hu Hku Hr
                 |j u ? Hu Hku Hr| | | | |]; subst.
  - congruence.
  - cbn [ignored] in Hx. congruence.
  - congruence.
  - rewrite Hr. reflexivity.
  - rewrite Hr. reflexivity.
Qed.



(** The child that always ends at once, with two restarts allowed: it is
    launched three times, and the supervisor ends with status 0. *)
Example three_launches :
  launches (trace (run backoff_options crash_loop (start backoff_options 0))) =
    3%nat
  /\ exited (run backoff_options crash_loop (start backoff_options 0)) =
     Some 0.
Proof. split; vm_compute; reflexivity. Qed.

(** ** The exit listener of the child *)

(** The turn in which a running child that is listened to ends. *)
Lemma step_child_exit (o : Options) (now : Z) (c : nat) (ch : ChildProcess)
    (code : option Z) (st : state) :
  exited st = None -> children st !! c = Some ch ->
  running ch = true -> exit_listener ch = true ->
  step o now (ChildExit c code) st =
  if code_nonzero code && exitOnError o then
    process_exit None
      (emit (ConsoleError (exited_with o code)) (mark_ended c st))
  else
    match child st with
    | None => throw (mark_ended c st)
    | Some _ =>
        if starts_reached o st && window_over now st then
          process_exit (Some 1)
            (emit (ConsoleError too_many_restarts)
               (delete_child_pid (mark_ended c st)))
        else
          setTimeout Relaunch now (wait st)
            (delete_child_pid (mark_ended c st))
    end.
Proof.
  intros He Hch Hr Hl.
  generalize (step_turn o now (ChildExit c code) st).
  generalize (step o now (ChildExit c code) st). intros st' T.
  inversion T as [e [Hx|Hx]|? ch' ? ? Hch' Hr' Hl'|? ch' ? ? Hch' Hr' Hl' Hc Ho
                 |? ch' ? ? Hch' Hr' Hl' Hc Hn|? ch' ? c0 ? Hch' Hr' Hl' Hc Hn Hs Hw
                 |? ch' ? c0 ? Hch' Hr' Hl' Hc Hn Hs| | | | | | | | |]; subst.
  - congruence.
  - cbn [ignored] in Hx. rewrite Hch in Hx. congruence.
  - congruence.
  - rewrite Hc, Ho. reflexivity.
  - rewrite Hc, Hn. reflexivity.
  - rewrite Hc, Hn, Hs, Hw. reflexivity.
  - rewrite Hc, Hn, Hs. reflexivity.
Qed.

(** C9.  When [monitor] is called by the exit listener, [child.pid] has
    just been deleted, so [monitor] takes the branch that schedules a
    restart, never the one that resets [attempts] and [wait]; no exit of a
    child changes [attempts] or [wait]. *)
Theorem exit_never_resets (o : Options) (now : Z) (st : state) :
  no_pid (delete_child_pid st) = true
  /\ monitor o now (delete_child_pid st) =
     match child st with
     | Some _ => schedule_restart o now (delete_child_pid st)
     | None => throw (delete_child_pid st)
     end
  /\ forall c code,
       attempts (step o now (ChildExit c code) st) = attempts st
       /\ wait (step o now (ChildExit c code) st) = wait st.
Proof.
  split; [apply no_pid_delete|]. split.
  - destruct (child st) as [c|] eqn:Hc.
    + apply (monitor_after_delete o now st c Hc).
    + unfold monitor. rewrite child_delete, Hc. reflexivity.
  - intros c code.
    generalize (step_turn o now (ChildExit c code) st).
    generalize (step o now (ChildExit c code) st). intros st' T.
    inversion T; subst; fields; split; reflexivity.
Qed.

(** C2, as stated, fails: with [exitOnError] set, a child that ends with
    code 2 makes the supervisor end with status 0. *)
Lemma exit_on_error_status_counterexample :
  ~ (exists s,
        exited (step strict_options 10 (ChildExit 0 (Some 2))
                  (start strict_options 0)) = Some s
        /\ s <> 0).
Proof.
  intros [s [H Hs]]. vm_compute in H. apply Hs. congruence.
Qed.

(** C2, amended.  With [exitOnError] set, when a running child ends with
    a code other than 0 the supervisor logs "<name> exited with error code
    <code>", runs its exit listener and ends with status 0 (the call is
    [process.exit()] without a code); it launches nothing, arms no timer,
    and nothing happens afterwards. *)
Theorem exit_on_error (o : Options) (now : Z) (c : nat) (ch : ChildProcess)
    (code : option Z) (st : state) :
  exitOnError o = true -> code_nonzero code = true ->
  exited st = None -> children st !! c = Some ch ->
  running ch = true -> exit_listener ch = true ->
  (exists tr,
      trace (step o now (ChildExit c code) st) =
        trace st ++
        ConsoleError (name o +:+ " exited with error code " +:+
                      code_string code) :: tr ++ [ProcessExit 0]
      /\ launches tr = 0%nat /\ relaunch_delays tr = [])
  /\ exited (step o now (ChildExit c code) st) = Some 0
  /\ timers (step o now (ChildExit c code) st) = timers st
  /\ forall evs,
       run o evs (step o now (ChildExit c code) st) =
       step o now (ChildExit c code) st.
Proof.
  intros Ho Hn He Hch Hr Hl.
  rewrite (step_child_exit o now c ch code st He Hch Hr Hl), Hn, Ho.
  cbn [andb].
  assert (Hx : exited (process_exit None
                  (emit (ConsoleError (exited_with o code))
                     (mark_ended c st))) = Some 0) by reflexivity.
  split; [|split; [exact Hx|split]].
  - unfold process_exit, on_process_exit, exited_with. project.
    destruct (child st) as [c0|]; project.
    + exists [RemoveAllListeners c0; Kill c0].
      rewrite <- !app_assoc. repeat split.
    + exists [TypeError]. rewrite <- !app_assoc. repeat split.
  - fields; reflexivity.
  - intros evs. apply (run_exited _ _ _ 0 Hx).
Qed.

Lemma exit_on_error_witness :
  exited (step strict_options 10 (ChildExit 0 (Some 2))
            (start strict_options 0)) = Some 0.
Proof.
  apply (exit_on_error strict_options 10 0
           {| pid := Some 1%positive; exit_listener := true;
              running := true; killed := false |}
           (Some 2) (start strict_options 0));
    reflexivity.
Defined.

(** ** Signals *)

(** C5, as stated, fails: after the listener of SIGTERM has run, the
    supervisor has not ended. *)
Lemma signal_exit_counterexample :
  ~ (exists s,
        exited (step default_options 10 (Signal SIGTERM)
                  (start default_options 0)) = Some s).
Proof.
  intros [s H]. vm_compute in H. discriminate H.
Qed.

(** C5, amended.  On SIGINT, SIGTERM or SIGHUP the supervisor removes the
    exit listeners of the current child object, then calls [kill()] on it,
    which signals the child if it still runs; the listener does not end
    the supervisor, and the later exit of that child logs nothing and arms
    no timer. *)
Theorem signal_forwarded (o : Options) (now : Z) (sg : signal) (c : nat)
    (ch : ChildProcess) (st : state) :
  exited st = None -> child st = Some c -> children st !! c = Some ch ->
  trace (step o now (Signal sg) st) =
    trace st ++ [RemoveAllListeners c; Kill c]
  /\ children (step o now (Signal sg) st) !! c = Some (signalled (detached ch))
  /\ exited (step o now (Signal sg) st) = None
  /\ timers (step o now (Signal sg) st) = timers st
  /\ forall now' code,
       trace (step o now' (ChildExit c code) (step o now (Signal sg) st)) =
         trace (step o now (Signal sg) st)
       /\ timers (step o now' (ChildExit c code) (step o now (Signal sg) st)) =
          timers st
       /\ exited (step o now' (ChildExit c code) (step o now (Signal sg) st)) =
          None.
Proof.
  intros He Hc Hch.
  assert (Hs : step o now (Signal sg) st = kill c (removeAllListeners c st)).
  { unfold step, on_signal. rewrite He, Hc. reflexivity. }
  rewrite Hs.
  assert (Hl : children (kill c (removeAllListeners c st)) !! c =
               Some (signalled (detached ch))).
  { project. rewrite !list_lookup_alter_eq, Hch. reflexivity. }
  split; [project; rewrite <- app_assoc; reflexivity|].
  split; [exact Hl|]. split; [exact He|]. split; [reflexivity|].
  intros now' code.
  assert (Hx : step o now' (ChildExit c code) (kill c (removeAllListeners c st))
               = (if running ch
                  then mark_ended c (kill c (removeAllListeners c st))
                  else kill c (removeAllListeners c st))).
  { unfold step. rewrite Hl.
    change (exited (kill c (removeAllListeners c st))) with (exited st).
    rewrite He. cbn [running exit_listener]. reflexivity. }
  rewrite Hx. destruct (running ch); repeat split; exact He.
Qed.

Lemma signal_forwarded_witness :
  trace (step default_options 10 (Signal SIGTERM) (start default_options 0)) =
  trace (start default_options 0) ++ [RemoveAllListeners 0%nat; Kill 0%nat].
Proof.
  apply (signal_forwarded default_options 10 SIGTERM 0
           {| pid := Some 1%positive; exit_listener := true;
              running := true; killed := false |}
           (start default_options 0));
    reflexivity.
Defined.

(** A signal received while the child is down, between its exit and the
    relaunch: the relaunch timer stays armed and launches the next
    child. *)
Example signal_before_relaunch :
  launches
    (trace (run default_options
              [(10, ChildExit 0 (Some 1)); (10, Signal SIGTERM);
               (11, TimerFired 1)]
              (start default_options 0))) = 2%nat
  /\ exited (run default_options
               [(10, ChildExit 0 (Some 1)); (10, Signal SIGTERM);
                (11, TimerFired 1)]
               (start default_options 0)) = None.
Proof. split; vm_compute; reflexivity. Qed.

(** After a signal, the supervisor ends when nothing is left to wait for:
    the child has ended and the window timer has fired. *)
Example signal_then_empty_loop :
  exited (run default_options
            [(10, Signal SIGTERM); (12, ChildExit 0 None); (13, LoopEmpty)]
            (start default_options 0)) = None
  /\ exited (run default_options
               [(10, Signal SIGTERM); (12, ChildExit 0 None);
                (6001, TimerFired 0); (6002, LoopEmpty)]
               (start default_options 0)) = Some 0.
Proof. split; vm_compute; reflexivity. Qed.

(** ** The window of launch *)

Ltac count_pending :=
  fields; rewrite ?pending_app; cbn [pending kind kind_eqb];
  rewrite ?Nat.add_0_r.

Lemma window_armed_step (o : Options) (now : Z) (e : event) (st : state) :
  window_armed st -> window_armed (step o now e st).
Proof.
  unfold window_armed. intros Hw.
  turn_cases o now e st; try (count_pending; assumption).
  - (* the window timer fires *)
    rewrite (pending_delete WindowReset _ i t) in Hw by assumption.
    replace (kind t) with WindowReset in Hw. cbn [kind_eqb] in Hw.
    count_pending. destruct (startTime st); lia.
  - (* the relaunch timer fires and the cap stops it *)
    rewrite (pending_delete WindowReset _ i t) in Hw by assumption.
    replace (kind t) with Relaunch in Hw. cbn [kind_eqb] in Hw.
    count_pending; exact Hw.
  - (* the relaunch timer fires and launches *)
    rewrite (pending_delete WindowReset _ i t) in Hw by assumption.
    replace (kind t) with Relaunch in Hw. cbn [kind_eqb] in Hw.
    count_pending; rewrite ?Heqo0 in Hw; lia.
Qed.

Lemma window_armed_start (o : Options) (now : Z) : window_armed (start o now).
Proof. reflexivity. Qed.

(** The turn in which a window timer fires. *)
Lemma step_window (o : Options) (now : Z) (i : nat) (t : timer) (st : state) :
  exited st = None -> timers st !! i = Some t -> kind t = WindowReset ->
  step o now (TimerFired i) st =
  set_starts 0 (set_startTime None (fired i st)).
Proof.
  intros He Ht Hk. generalize (step_turn o now (TimerFired i) st).
  generalize (step o now (TimerFired i) st). intros st' T.
  inversion T as [e [Hx|Hx]| | | | | | |j u ? Hu Hku|j u ? Hu Hku Hr
                 |j u ? Hu Hku Hr| | | | |]; subst.
  - congruence.
  - cbn [ignored] in Hx. congruence.
  - reflexivity.
  - congruence.
  - congruence.
Qed.

(** C6.  A launch that finds [startTime] unset sets it to the current
    time and arms one timer of [max * 1000 + 1] ms; a launch that finds it
    set arms nothing and leaves it; every launch adds one to [starts]; the
    timer, when it fires, unsets [startTime] and sets [starts] to 0
    whatever [starts] was; and all along a run, one window timer is
    pending when [startTime] is set and none when it is not. *)
Theorem window_timer (o : Options) :
  (forall now st,
      exited st = None -> startTime st = None ->
      startTime (launch o now st) = Some now
      /\ timers (launch o now st) =
         timers st ++ [{| kind := WindowReset; armed_at := now;
                          delay := num 6001 |}]
      /\ starts (launch o now st) = starts st + 1)
  /\
  (forall now t0 st,
      exited st = None -> startTime st = Some t0 ->
      startTime (launch o now st) = Some t0
      /\ timers (launch o now st) = timers st
      /\ starts (launch o now st) = starts st + 1)
  /\
  (forall now i t st,
      exited st = None -> timers st !! i = Some t -> kind t = WindowReset ->
      startTime (step o now (TimerFired i) st) = None
      /\ starts (step o now (TimerFired i) st) = 0
      /\ timers (step o now (TimerFired i) st) = delete i (timers st))
  /\
  (forall now evs,
      pending WindowReset (timers (run o evs (start o now))) =
      match startTime (run o evs (start o now)) with
      | Some _ => 1%nat
      | None => 0%nat
      end).
Proof.
  split; [|split; [|split]].
  - intros now st He Hs. rewrite launch_eq by exact He.
    unfold open_window. rewrite Hs. repeat split.
  - intros now t0 st He Hs. rewrite launch_eq by exact He.
    unfold open_window. rewrite Hs. project. repeat split. exact Hs.
  - intros now i t st He Ht Hk.
    rewrite (step_window o now i t st He Ht Hk). repeat split.
  - intros now evs.
    apply (run_invariant o window_armed).
    + intros t e st. apply window_armed_step.
    + apply window_armed_start.
Qed.

Lemma window_timer_witness :
  startTime (launch default_options 7 init) = Some 7
  /\ startTime (launch default_options 9 (start default_options 7)) = Some 7
  /\ starts (launch default_options 9 (start default_options 7)) = 2
  /\ starts (step default_options 6008 (TimerFired 0)
               (launch default_options 9 (start default_options 7))) = 0.
Proof.
  pose proof (window_timer default_options) as [H1 [H2 [H3 _]]].
  split; [apply (H1 7 init); reflexivity|].
  split; [apply (H2 9 7 (start default_options 7)); reflexivity|].
  split; [apply (H2 9 7 (start default_options 7)); reflexivity|].
  apply (H3 6008 0%nat {| kind := WindowReset; armed_at := 7;
                          delay := num 6001 |}
           (launch default_options 9 (start default_options 7)));
    reflexivity.
Defined.

(** ** The output of the child *)





(** The listeners of a child object stay attached when the next child is
    launched: what the first child wrote, read after the second child has
    written, is forwarded after it. *)
Example output_of_previous_child :
  trace (run default_options
           [(10, ChildExit 0 (Some 1)); (11, TimerFired 1);
            (12, ChildData 1 Stdout [0x42]); (12, ChildData 0 Stdout [0x41])]
           (start default_options 0)) =
  trace (run default_options
           [(10, ChildExit 0 (Some 1)); (11, TimerFired 1)]
           (start default_options 0)) ++
  [StreamWrite Stdout [0x42]; StreamWrite Stdout [0x41]].
Proof. vm_compute. reflexivity. Qed.

(** ** One child at a time *)

Lemma is_Some_alter (f : ChildProcess -> ChildProcess)
    (l : list ChildProcess) (c c' : nat) :
  is_Some (alter f c l !! c') <-> is_Some (l !! c').
Proof. rewrite !lookup_lt_is_Some, length_alter. reflexivity. Qed.

Lemma runs_alter (f : ChildProcess -> ChildProcess)
    (l : list ChildProcess) (c c' : nat) :
  (forall ch, running (f ch) = running ch) ->
  runs (alter f c l) c' <-> runs l c'.
Proof.
  intros Hf. unfold runs. rewrite list_lookup_alter.
  destruct (decide (c = c')) as [->|Hne]; [|reflexivity].
  destruct (l !! c') as [ch0|]; cbn; split.
  - intros [ch [[= <-] Hr]]. rewrite Hf in Hr. eauto.
  - intros [ch [[= <-] Hr]]. exists (f ch0). rewrite Hf. eauto.
  - intros [ch [[=] _]].
  - intros [ch [[=] _]].
Qed.

Lemma runs_ended (l : list ChildProcess) (c c' : nat) :
  runs (alter ended c l) c' -> c' <> c /\ runs l c'.
Proof.
  unfold runs. rewrite list_lookup_alter.
  destruct (decide (c = c')) as [->|Hne].
  - destruct (l !! c') as [ch0|]; cbn; intros [ch [[= <-] Hr]].
    discriminate Hr.
  - intros H. split; [congruence|exact H].
Qed.

Lemma runs_snoc (l : list ChildProcess) (ch : ChildProcess) (c' : nat) :
  runs (l ++ [ch]) c' -> runs l c' \/ c' = length l.
Proof.
  intros [ch' [Hl Hr]]. apply lookup_snoc_Some in Hl as [[_ Hl]|[Hl _]].
  - left. exists ch'. split; assumption.
  - right. exact Hl.
Qed.

Lemma pending_relaunch_fired (l : list timer) (i : nat) (t : timer) :
  l !! i = Some t -> kind t = Relaunch ->
  pending Relaunch l = S (pending Relaunch (delete i l)).
Proof.
  intros Ht Hk. rewrite (pending_delete Relaunch l i t Ht), Hk. reflexivity.
Qed.

Lemma pending_relaunch_window (l : list timer) (i : nat) (t : timer) :
  l !! i = Some t -> kind t = WindowReset ->
  pending Relaunch l = pending Relaunch (delete i l).
Proof.
  intros Ht Hk. rewrite (pending_delete Relaunch l i t Ht), Hk. reflexivity.
Qed.

Lemma running_detached ch : running (detached ch) = running ch.
Proof. reflexivity. Qed.

Lemma running_signalled ch : running (signalled ch) = running ch.
Proof. reflexivity. Qed.

Lemma running_without_pid ch : running (without_pid ch) = running ch.
Proof. reflexivity. Qed.

(** Brings [runs] on the children of a final state of [turn] back to
    [runs] on the children of the state before. *)
Ltac runs_back H :=
  repeat first
    [ rewrite (runs_alter detached) in H by exact running_detached
    | rewrite (runs_alter signalled) in H by exact running_signalled
    | rewrite (runs_alter without_pid) in H by exact running_without_pid ].

Lemma one_child_step (o : Options) (now : Z) (e : event) (st : state) :
  one_child st -> one_child (step o now e st).
Proof.
  intros [[c0 [Hc0 Hl0]] [Hrun Hpend]]. unfold one_child.
  assert (Hcur : forall c', runs (children st) c' ->
                            Some c0 = Some c' /\
                            pending Relaunch (timers st) = 0%nat).
  { intros c' Hc'. rewrite <- Hc0. auto. }
  turn_cases o now e st; try congruence.
  - (* nothing *)
    split; [eauto|]. split; assumption.
  - (* an exit that is not listened to *)
    project. split; [exists c0; rewrite is_Some_alter; auto|].
    split; [|exact Hpend].
    intros c' Hc'. apply runs_ended in Hc' as [_ Hc']. auto.
  - (* exitOnError *)
    fields. split; [exists c0; rewrite !is_Some_alter; auto|].
    split; [|exact Hpend].
    intros c' Hc'. runs_back Hc'. apply runs_ended in Hc' as [_ Hc']. auto.
  - (* the restart storm *)
    replace c1 with c0 in * by congruence.
    fields. split; [exists c0; rewrite !is_Some_alter; auto|].
    split; [|exact Hpend].
    intros c' Hc'. runs_back Hc'. apply runs_ended in Hc' as [_ Hc']. auto.
  - (* a restart is scheduled *)
    replace c1 with c0 in * by congruence.
    assert (Hc : runs (children st) c) by (exists ch; auto).
    destruct (Hcur c Hc) as [Hcc Hp0].
    fields. rewrite pending_app, Hp0. cbn [pending kind kind_eqb].
    split; [exists c0; rewrite !is_Some_alter; auto|].
    split; [|lia].
    intros c' Hc'. runs_back Hc'. apply runs_ended in Hc' as [Hne Hc'].
    destruct (Hcur c' Hc') as [Hcc' _]. congruence.
  - (* data *)
    project. split; [eauto|]. split; assumption.
  - (* the window timer fires *)
    project.
    rewrite <- (pending_relaunch_window (timers st) i t) by assumption.
    split; [eauto|]. split; assumption.
  - (* the cap stops the relaunch *)
    assert (Hp : pending Relaunch (timers st) =
                 S (pending Relaunch (delete i (timers st))))
      by (apply (pending_relaunch_fired _ i t); assumption).
    fields. split; [exists c0; rewrite !is_Some_alter; auto|].
    split; [|lia].
    intros c' Hc'. runs_back Hc'. destruct (Hcur c' Hc') as [_ Hp0]. lia.
  - (* the relaunch *)
    assert (Hp : pending Relaunch (timers st) =
                 S (pending Relaunch (delete i (timers st))))
      by (apply (pending_relaunch_fired _ i t); assumption).
    assert (Hp0 : pending Relaunch (delete i (timers st)) = 0%nat) by lia.
    assert (Hnone : forall c', ~ runs (children st) c').
    { intros c' Hc'. destruct (Hcur c' Hc') as [_ Hz]. lia. }
    fields; rewrite ?pending_app, Hp0; cbn [pending kind kind_eqb].
    + split; [eexists; split; [reflexivity|]|].
      { rewrite lookup_app_r, Nat.sub_diag by lia. eauto. }
      split; [|lia].
      intros c' Hc'. apply runs_snoc in Hc' as [Hc'| ->].
      * destruct (Hnone c' Hc').
      * split; reflexivity.
    + split; [eexists; split; [reflexivity|]|].
      { rewrite lookup_app_r, Nat.sub_diag by lia. eauto. }
      split; [|lia].
      intros c' Hc'. apply runs_snoc in Hc' as [Hc'| ->].
      * destruct (Hnone c' Hc').
      * split; reflexivity.
  - (* a signal *)
    replace c with c0 in * by congruence.
    project. split; [exists c0; rewrite !is_Some_alter; auto|].
    split; [|exact Hpend].
    intros c' Hc'. runs_back Hc'. rewrite Hc0. auto.
  - (* the loop is empty *)
    fields. split; [exists c0; rewrite !is_Some_alter; auto|].
    split; [|exact Hpend].
    intros c' Hc'. runs_back Hc'. auto.
  - (* the spawn failed *)
    unfold unhandled_error.
    fields. split; [exists c0; rewrite !is_Some_alter; auto|].
    split; [|exact Hpend].
    intros c' Hc'. runs_back Hc'. apply runs_ended in Hc' as [_ Hc']. auto.
  - (* an error that nothing handles *)
    fields. split; [exists c0; rewrite !is_Some_alter; auto|].
    split; [|exact Hpend].
    intros c' Hc'. runs_back Hc'. auto.
Qed.

Lemma one_child_start (o : Options) (now : Z) : one_child (start o now).
Proof.
  unfold one_child, start. rewrite launch_eq by reflexivity. cbn.
  split; [eexists; split; [reflexivity|]; eauto|].
  split; [|lia].
  intros c [ch [Hl Hr]]. destruct c as [|c]; [split; reflexivity|].
  discriminate Hl.
Qed.

Lemma one_child_run (o : Options) (now : Z) (evs : list (Z * event)) :
  one_child (run o evs (start o now)).
Proof.
  apply run_invariant.
  - intros t e st. apply one_child_step.
  - apply one_child_start.
Qed.

(** ** The exit listener of the process *)





(** A pipe of the supervisor breaks 10 ms after the start, while the
    first child runs: the supervisor ends with status 1, and the child,
    which still runs, has been signalled and is no longer listened to. *)
Example error_kills_running_child :
  children (step default_options 10 ErrorEvent (start default_options 0)) =
    [{| pid := Some 1%positive; exit_listener := false; running := true;
        killed := true |}]
  /\ trace (step default_options 10 ErrorEvent (start default_options 0)) =
     trace (start default_options 0) ++
     [UnhandledError; RemoveAllListeners 0%nat; Kill 0%nat; ProcessExit 1]
  /\ exited (step default_options 10 ErrorEvent (start default_options 0)) =
     Some 1.
Proof. vm_compute. repeat split. Qed.

(** The executable is missing: the supervisor ends with status 1 as soon
    as the child object tells, and arms no relaunch timer. *)
Example spawn_failure_is_fatal :
  exited (step default_options 0 (SpawnFailed 0) (start default_options 0)) =
    Some 1
  /\ relaunch_delays
       (trace (step default_options 0 (SpawnFailed 0)
                 (start default_options 0))) = []
  /\ children (step default_options 0 (SpawnFailed 0)
                 (start default_options 0)) =
     [{| pid := Some 1%positive; exit_listener := false; running := false;
         killed := false |}].
Proof. vm_compute. repeat split. Qed.

(** ** The restart-storm guard *)

(** As long as the window is not over, the guard lets the restart be
    scheduled, however many starts the window has seen. *)
Lemma storm_guard_waits (o : Options) (now t0 : Z) (c c0 : nat)
    (ch : ChildProcess) (code : option Z) (st : state) :
  exited st = None -> children st !! c = Some ch ->
  running ch = true -> exit_listener ch = true ->
  exitOnError o = false -> child st = Some c0 ->
  startTime st = Some t0 -> now <= t0 + max * 1000 ->
  exited (step o now (ChildExit c code) st) = None
  /\ timers (step o now (ChildExit c code) st) =
     timers st ++ [{| kind := Relaunch; armed_at := now; delay := wait st |}].
Proof.
  intros He Hch Hr Hl Ho Hc Hs Hle.
  rewrite (step_child_exit o now c ch code st He Hch Hr Hl).
  rewrite Ho, andb_false_r, Hc.
  assert (Hw : window_over now st = false).
  { unfold window_over. rewrite Hs. apply Z.ltb_ge. cbn. lia. }
  rewrite Hw, andb_false_r. unfold delete_child_pid. project. rewrite Hc.
  project. split; [exact He|reflexivity].
Qed.

(** C1, the code at the failing input: one start is allowed in a window
    and the child ends 10 ms after the first launch.  The cap is reached
    within the window, yet the supervisor does not end: it arms the
    relaunch timer and launches the child again, 11 ms into the same
    window. *)
Theorem storm_guard_relaunches_in_window :
  starts_reached storm_options (start storm_options 0) = true
  /\ exited (run storm_options [(10, ChildExit 0 (Some 1))]
               (start storm_options 0)) = None
  /\ relaunch_delays
       (trace (run storm_options [(10, ChildExit 0 (Some 1))]
                 (start storm_options 0))) = [num 1]
  /\ exited (run storm_options
               [(10, ChildExit 0 (Some 1)); (11, TimerFired 1)]
               (start storm_options 0)) = None
  /\ launches
       (trace (run storm_options
                 [(10, ChildExit 0 (Some 1)); (11, TimerFired 1)]
                 (start storm_options 0))) = 2%nat
  /\ startTime (run storm_options
                  [(10, ChildExit 0 (Some 1)); (11, TimerFired 1)]
                  (start storm_options 0)) = Some 0.
Proof. vm_compute. repeat split. Qed.

(** ** The delay of the restarts *)

(** C3, the code at the failing input: a base delay of 100 ms
    ([restartDelay] 0.1) that doubles.  The relaunch timers of a child
    that ends three times in a row are armed for 1, 2 and 4 ms, not for
    100, 200 and 400 ms. *)
Theorem first_delay_ignores_restartDelay :
  fmul (restartDelay backoff_options) (num 1000) = num 100
  /\ relaunch_delays
       (trace (run backoff_options crash_loop (start backoff_options 0))) =
     [num 1; num 2; num 4].
Proof. split; vm_compute; reflexivity. Qed.

(** ** The exported entry point *)

Lemma merged_lookup (opts : gmap string value) (k : string) :
  merged_options (Some opts) !! k =
  match opts !! k with
  | Some v => Some v
  | None => defaults !! k
  end.
Proof.
  unfold merged_options, Object_assign.
  change (default ∅ (Some opts)) with opts.
  rewrite lookup_union. destruct (opts !! k), (defaults !! k); reflexivity.
Qed.

Lemma merged_none : merged_options None = defaults.
Proof.
  unfold merged_options, Object_assign.
  change (default ∅ None) with (∅ : gmap string value).
  apply (left_id_L ∅ (∪)).
Qed.

(** ** The delays are the products of the factor *)

Ltac list_delays :=
  fields; rewrite ?relaunch_delays_app; cbn [relaunch_delays];
  rewrite ?app_nil_r.

Lemma geometric_step (o : Options) (now : Z) (e : event) (st : state) :
  one_child st -> geometric o st -> geometric o (step o now e st).
Proof.
  intros [_ [Hrun _]] [H0 [Hw [Hlen Hpow]]]. unfold geometric.
  turn_cases o now e st;
    try (list_delays; repeat split; assumption).
  - (* a restart is scheduled *)
    assert (Hc : runs (children st) c) by (exists ch; auto).
    destruct (Hrun c Hc) as [_ Hp0].
    list_delays. rewrite pending_app, length_app, Hlen, Hp0.
    cbn [pending kind kind_eqb length].
    split; [exact H0|]. split; [exact Hw|]. split; [lia|].
    intros k d Hk. apply lookup_snoc_Some in Hk as [[_ Hk]|[Hk <-]].
    + apply Hpow. exact Hk.
    + rewrite Hk, Hlen, Hp0, Nat.add_0_r. exact Hw.
  - (* the window timer fires *)
    list_delays.
    rewrite <- (pending_relaunch_window (timers st) i t) by assumption.
    repeat split; assumption.
  - (* the cap stops the relaunch *)
    assert (Hp : pending Relaunch (timers st) =
                 S (pending Relaunch (delete i (timers st))))
      by (apply (pending_relaunch_fired _ i t); assumption).
    list_delays; (split; [lia|]);
      (split; [rewrite Z2Nat.inj_add by lia; rewrite Nat.add_1_r;
               cbn [fpow]; rewrite Hw; reflexivity|]);
      (split; [rewrite Hlen, Hp, Z2Nat.inj_add by lia; cbn; lia
              |exact Hpow]).
  - (* the relaunch *)
    assert (Hp : pending Relaunch (timers st) =
                 S (pending Relaunch (delete i (timers st))))
      by (apply (pending_relaunch_fired _ i t); assumption).
    list_delays; rewrite ?pending_app; cbn [pending kind kind_eqb];
      (split; [lia|]);
      (split; [rewrite Z2Nat.inj_add by lia; rewrite Nat.add_1_r;
               cbn [fpow]; rewrite Hw; reflexivity|]);
      (split; [rewrite Hlen, Hp, Z2Nat.inj_add by lia; cbn; lia
              |exact Hpow]).
Qed.

Lemma geometric_start (o : Options) (now : Z) : geometric o (start o now).
Proof.
  unfold geometric, start. rewrite launch_eq by reflexivity. cbn.
  split; [lia|]. split; [reflexivity|]. split; [reflexivity|].
  intros k d Hk. destruct k; discriminate Hk.
Qed.

Lemma geometric_run (o : Options) (now : Z) (evs : list (Z * event)) :
  geometric o (run o evs (start o now)).
Proof.
  apply (run_invariant o (fun st => one_child st /\ geometric o st)).
  - intros t e st [H1 H2]. split.
    + apply one_child_step. exact H1.
    + apply geometric_step; assumption.
  - split; [apply one_child_start|apply geometric_start].
Qed.

(** The relaunch timers of a run are armed for 1 ms, then for the factor,
    then for the factor times the factor, and so on, each product rounded
    as JavaScript rounds it: [restartDelay] plays no part. *)
Lemma relaunch_delays_geometric (o : Options) (now : Z)
    (evs : list (Z * event)) (k : nat) (d : number) :
  relaunch_delays (trace (run o evs (start o now))) !! k = Some d ->
  d = fpow (growPercentage o) k.
Proof. apply geometric_run. Qed.

(** ** The exported entry point *)

Lemma wait_relaunch (o : Options) (now : Z) (i : nat) (t : timer) (st : state) :
  exited st = None -> timers st !! i = Some t -> kind t = Relaunch ->
  wait (step o now (TimerFired i) st) = fmul (wait st) (growPercentage o).
Proof.
  intros He Ht Hk. rewrite (step_relaunch o now i t st He Ht Hk).
  destruct (restarts_exceeded o (bump o st)); fields; reflexivity.
Qed.

(** [read_options] gives the values that the object holds, and gives them
    whenever the object holds values of these types. *)
Lemma read_options_reads (m : gmap string value) (o : Options) :
  read_options m = Some o <-> reads m o.
Proof.
  unfold read_options, reads, str_field, bool_field, num_field, limit_field,
    opt_limit_field.
  split.
  - intros H.
    destruct (m !! "name") as [[| | |n]|]; try discriminate H.
    destruct (m !! "exitOnError") as [[|e| |]|]; try discriminate H.
    destruct (m !! "growPercentage") as [[| |g|]|]; try discriminate H.
    destruct (m !! "maxRetries") as [[| |r|]|]; try discriminate H.
    cbn [mbind option_bind] in H.
    destruct (rational r) as [qr|] eqn:Hr; try discriminate H.
    destruct (m !! "restartDelay") as [[| |d|]|]; try discriminate H.
    cbn [mbind option_bind] in H.
    destruct (m !! "maxRestarts") as [[| |x|]|]; try discriminate H;
      cbn [mbind option_bind] in H;
      try (destruct (rational x) as [qx|] eqn:Hx; [|discriminate H];
           cbn [mbind option_bind] in H);
      (destruct (m !! "processExec") as [[| | |p]|]; try discriminate H);
      cbn [mbind option_bind] in H; injection H as <-; cbn;
      repeat split; eauto.
  - intros (Hn & He & Hg & (r & Hr & Hqr) & Hd & Hm & Hp).
    rewrite Hn, He, Hg, Hr, Hd, Hp. cbn [mbind option_bind]. rewrite Hqr.
    cbn [mbind option_bind]. destruct o as [n e g r' d m' p]; cbn in *.
    destruct m' as [q|].
    + destruct Hm as (x & -> & ->). reflexivity.
    + destruct Hm as [-> | ->]; reflexivity.
Qed.

(** With the factor 0.25, each of the first 538 products is smaller than
    the number it was made from; the 538th is 0, and so is every later
    one. *)
Lemma quarter_decreases (k : nat) :
  (k < 538)%nat ->
  flt (fmul (fpow quarter k) quarter) (fpow quarter k) = true.
Proof.
  intros Hk.
  assert (H : forallb (fun k => flt (fmul (fpow quarter k) quarter)
                                   (fpow quarter k))
                (List.seq 0 538) = true) by (vm_compute; reflexivity).
  rewrite forallb_forall in H. apply H. apply in_seq. lia.
Qed.

Lemma quarter_vanishes (k : nat) : (538 <= k)%nat -> fpow quarter k = zero.
Proof.
  induction 1 as [|k Hk IH].
  - vm_compute. reflexivity.
  - cbn [fpow]. rewrite IH. vm_compute. reflexivity.
Qed.

(** C10, as stated, fails: with the default options and a child that
    ends as soon as it is launched, [wait] is 0 after 538 restarts, a
    second later; the callback of the next relaunch timer multiplies it
    by 0.25 and leaves it as it is. *)
Lemma delay_stops_decreasing_counterexample :
  exited (run default_options (crashes 538 0 1 ++ [(1077, ChildExit 538 (Some 1))])
            (start default_options 0)) = None
  /\ timers (run default_options
               (crashes 538 0 1 ++ [(1077, ChildExit 538 (Some 1))])
               (start default_options 0)) !! 1%nat =
     Some {| kind := Relaunch; armed_at := 1077; delay := zero |}
  /\ wait (run default_options
             (crashes 538 0 1 ++ [(1077, ChildExit 538 (Some 1))])
             (start default_options 0)) = zero
  /\ wait (step default_options 1078 (TimerFired 1)
             (run default_options
                (crashes 538 0 1 ++ [(1077, ChildExit 538 (Some 1))])
                (start default_options 0))) = zero
  /\ flt (wait (step default_options 1078 (TimerFired 1)
                  (run default_options
                     (crashes 538 0 1 ++ [(1077, ChildExit 538 (Some 1))])
                     (start default_options 0))))
         (wait (run default_options
                  (crashes 538 0 1 ++ [(1077, ChildExit 538 (Some 1))])
                  (start default_options 0))) = false.
Proof. vm_compute. repeat split. Qed.

(** C10, amended.  The exported [start] runs [start] on the caller's
    options written over the defaults: a field the caller gives wins, a
    field the caller leaves out has its default, and without an argument
    the options are the defaults; [start] is run on the values that the
    merged object holds.  When the caller leaves [growPercentage] out it
    is 0.25, and then every time a relaunch timer fires in a run, [wait]
    is multiplied by 0.25: it is 1 multiplied by 0.25 as many times as
    [attempts] tells, it gets strictly smaller in each of the first 538
    relaunch callbacks, and from then on it is 0 and stays 0. *)
Theorem exported_start_defaults :
  (forall opts k,
      merged_options (Some opts) !! k =
      match opts !! k with
      | Some v => Some v
      | None => defaults !! k
      end)
  /\ merged_options None = defaults
  /\ (defaults !! "name" = Some (VStr "deepstream")
      /\ defaults !! "exitOnError" = Some (VBool false)
      /\ defaults !! "growPercentage" = Some (VNum quarter)
      /\ defaults !! "maxRetries" = Some (VNum (num 10))
      /\ defaults !! "restartDelay" = Some (VNum (num 1))
      /\ forall k, k <> "name" -> k <> "exitOnError" ->
                   k <> "growPercentage" -> k <> "maxRetries" ->
                   k <> "restartDelay" -> defaults !! k = None)
  /\ (forall daemonOptions o now,
         reads (merged_options daemonOptions) o ->
         exports_start daemonOptions now = Some (start o now))
  /\ (forall daemonOptions now st,
         exports_start daemonOptions now = Some st ->
         exists o, reads (merged_options daemonOptions) o /\ st = start o now)
  /\ (forall daemonOptions o now,
         default ∅ daemonOptions !! "growPercentage" = None ->
         reads (merged_options daemonOptions) o ->
         growPercentage o = quarter
         /\ forall evs t i tm,
              exited (run o evs (start o now)) = None ->
              timers (run o evs (start o now)) !! i = Some tm ->
              kind tm = Relaunch ->
              wait (run o evs (start o now)) =
                fpow quarter (Z.to_nat (attempts (run o evs (start o now))))
              /\ wait (step o t (TimerFired i) (run o evs (start o now))) =
                 fmul (wait (run o evs (start o now))) quarter
              /\ (attempts (run o evs (start o now)) < 538 ->
                  flt (wait (step o t (TimerFired i)
                               (run o evs (start o now))))
                      (wait (run o evs (start o now))) = true)
              /\ (538 <= attempts (run o evs (start o now)) ->
                  wait (run o evs (start o now)) = zero
                  /\ wait (step o t (TimerFired i)
                             (run o evs (start o now))) = zero)).
Proof.
  split; [exact merged_lookup|]. split; [exact merged_none|].
  split.
  { repeat (split; [reflexivity|]). intros k H1 H2 H3 H4 H5.
    unfold defaults. rewrite !lookup_insert_ne by congruence.
    apply lookup_empty. }
  split.
  { intros daemonOptions o now Hr. apply read_options_reads in Hr.
    unfold exports_start. rewrite Hr. reflexivity. }
  split.
  { intros daemonOptions now st. unfold exports_start.
    destruct (read_options (merged_options daemonOptions)) as [o|] eqn:E;
      [|discriminate].
    cbn [mbind option_bind]. intros H. injection H as <-.
    exists o. split; [apply read_options_reads; exact E|reflexivity]. }
  intros daemonOptions o now Hnone Hread.
  assert (Hg : growPercentage o = quarter).
  { destruct Hread as (_ & _ & Hread & _).
    unfold merged_options, Object_assign in Hread.
    rewrite lookup_union, Hnone in Hread.
    change (defaults !! "growPercentage") with (Some (VNum quarter)) in Hread.
    cbn in Hread. congruence. }
  split; [exact Hg|].
  intros evs t i tm He Ht Hk.
  destruct (geometric_run o now evs) as [H0 [Hw _]]. rewrite Hg in Hw.
  rewrite (wait_relaunch o t i tm _ He Ht Hk), Hg.
  split; [exact Hw|]. split; [reflexivity|]. rewrite Hw. split.
  - intros Hlt. apply quarter_decreases. lia.
  - intros Hge.
    assert (Hz : fpow quarter
                   (Z.to_nat (attempts (run o evs (start o now)))) = zero)
      by (apply quarter_vanishes; lia).
    rewrite Hz. split; [reflexivity|]. vm_compute. reflexivity.
Qed.

Lemma exported_start_defaults_witness :
  growPercentage default_options = quarter
  /\ wait (run default_options crash_once (start default_options 0)) =
     fpow quarter
       (Z.to_nat
          (attempts (run default_options crash_once (start default_options 0))))
  /\ flt (wait (step default_options 11 (TimerFired 1)
                  (run default_options crash_once
                     (start default_options 0))))
         (wait (run default_options crash_once
                  (start default_options 0))) = true.
Proof.
  destruct exported_start_defaults as [_ [_ [_ [_ [_ H]]]]].
  destruct (H (Some (<["processExec" := VStr "/usr/bin/deepstream"]> ∅))
              default_options 0) as [H2 H3];
    [vm_compute; reflexivity
    | unfold reads; cbn [maxRestarts default_options];
      repeat apply conj; try (vm_compute; reflexivity);
      [exists (num 10); split; vm_compute; reflexivity
      |right; vm_compute; reflexivity] |].
  split; [exact H2|].
  destruct (H3 crash_once 11 1%nat
              {| kind := Relaunch; armed_at := 10; delay := num 1 |})
    as [H4 [_ [H5 _]]]; [vm_compute; reflexivity..|].
  split; [exact H4|]. apply H5. vm_compute. reflexivity.
Defined.

(** * Further properties of the supervisor *)

Lemma relaunch_delays_geometric_witness :
  num 4 = fpow (growPercentage backoff_options) 2.
Proof.
  apply (relaunch_delays_geometric backoff_options 0 crash_loop 2 (num 4)).
  vm_compute. reflexivity.
Defined.

Lemma storm_guard_waits_witness :
  exited (step storm_options 10 (ChildExit 0 (Some 1))
            (start storm_options 0)) = None.
Proof.
  apply (storm_guard_waits storm_options 10 0 0 0
           {| pid := Some 1%positive; exit_listener := true;
              running := true; killed := false |}
           (Some 1) (start storm_options 0));
    vm_compute; first [reflexivity | discriminate].
Defined.

(** ** One child process *)

(** In a run, two child processes never run at the same time: a child
    process that runs is the one [child] refers to, and while it runs no
    relaunch is pending. *)
Theorem single_running_child (o : Options) (now : Z) (evs : list (Z * event))
    (c1 c2 : nat) :
  runs (children (run o evs (start o now))) c1 ->
  runs (children (run o evs (start o now))) c2 ->
  c1 = c2
  /\ child (run o evs (start o now)) = Some c1
  /\ pending Relaunch (timers (run o evs (start o now))) = 0%nat.
Proof.
  intros H1 H2. destruct (one_child_run o now evs) as [_ [Hrun _]].
  destruct (Hrun c1 H1) as [E1 P1]. destruct (Hrun c2 H2) as [E2 _].
  split; [congruence|]. split; assumption.
Qed.

Lemma single_running_child_witness :
  (1 = 1)%nat
  /\ child (run default_options restart_once (start default_options 0)) =
     Some 1%nat
  /\ pending Relaunch
       (timers (run default_options restart_once (start default_options 0))) =
     0%nat.
Proof.
  apply (single_running_child default_options 0 restart_once 1 1);
    exists {| pid := Some 2%positive; exit_listener := true;
              running := true; killed := false |};
    split; vm_compute; reflexivity.
Defined.

Lemma length_pending (l : list timer) :
  length l = (pending WindowReset l + pending Relaunch l)%nat.
Proof.
  induction l as [|t l IH]; [reflexivity|].
  cbn [length pending]. rewrite IH. destruct (kind t); cbn [kind_eqb]; lia.
Qed.

Lemma window_armed_run (o : Options) (now : Z) (evs : list (Z * event)) :
  window_armed (run o evs (start o now)).
Proof.
  apply (run_invariant o window_armed).
  - intros t e st. apply window_armed_step.
  - apply window_armed_start.
Qed.

(** In a run, at most two timers are pending: at most one window timer and
    at most one relaunch timer. *)
Theorem pending_timers_bounded (o : Options) (now : Z)
    (evs : list (Z * event)) :
  (pending WindowReset (timers (run o evs (start o now))) <= 1)%nat
  /\ (pending Relaunch (timers (run o evs (start o now))) <= 1)%nat
  /\ (length (timers (run o evs (start o now))) <= 2)%nat.
Proof.
  pose proof (window_armed_run o now evs) as Hw. unfold window_armed in Hw.
  destruct (one_child_run o now evs) as [_ [_ Hr]].
  rewrite length_pending.
  destruct (startTime (run o evs (start o now))); lia.
Qed.

(** ** The child object of a launch *)

Lemma newest_child_step (o : Options) (now : Z) (e : event) (st : state) :
  newest_child st -> newest_child (step o now e st).
Proof.
  intros [Hlen [Hc Hpos]]. unfold newest_child.
  turn_cases o now e st;
    count_launches; rewrite ?length_alter, ?length_app; cbn [length];
    (split; [lia|]); (split; [first [congruence | f_equal; lia] | lia]).
Qed.

Lemma newest_child_start (o : Options) (now : Z) : newest_child (start o now).
Proof.
  unfold newest_child, start. rewrite launch_eq by reflexivity. cbn.
  repeat split. lia.
Qed.

(** In a run there is one child object for each launch, they are never
    removed, and [child] refers to the one launched last. *)
Theorem child_is_last_launched (o : Options) (now : Z)
    (evs : list (Z * event)) :
  length (children (run o evs (start o now))) =
    launches (trace (run o evs (start o now)))
  /\ child (run o evs (start o now)) =
     Some (Nat.pred (launches (trace (run o evs (start o now)))))
  /\ (1 <= launches (trace (run o evs (start o now))))%nat.
Proof.
  assert (H : newest_child (run o evs (start o now))).
  { apply (run_invariant o newest_child).
    - intros t e st. apply newest_child_step.
    - apply newest_child_start. }
  destruct H as [Hlen [Hc Hpos]]. rewrite <- Hlen.
  split; [reflexivity|]. split; [exact Hc|lia].
Qed.

(** ** The count of starts *)

Lemma window_counts_step (o : Options) (now : Z) (e : event) (st : state) :
  window_counts st -> window_counts (step o now e st).
Proof.
  intros [Hs Hl]. unfold window_counts.
  turn_cases o now e st;
    try (count_launches; split; assumption).
  - (* the window timer fires *)
    count_launches. split; [reflexivity|lia].
  - (* the relaunch *)
    count_launches; first [congruence | split; lia].
Qed.

Lemma window_counts_start (o : Options) (now : Z) :
  window_counts (start o now).
Proof.
  unfold window_counts, start. rewrite launch_eq by reflexivity. cbn.
  split; lia.
Qed.

(** In a run, [starts] is 0 when [startTime] is unset and at least 1 when
    it is set, and it never exceeds the number of launches. *)
Theorem starts_follow_window (o : Options) (now : Z)
    (evs : list (Z * event)) :
  match startTime (run o evs (start o now)) with
  | None => starts (run o evs (start o now)) = 0
  | Some _ => 1 <= starts (run o evs (start o now))
  end
  /\ starts (run o evs (start o now)) <=
     Z.of_nat (launches (trace (run o evs (start o now)))).
Proof.
  apply (run_invariant o window_counts).
  - intros t e st. apply window_counts_step.
  - apply window_counts_start.
Qed.

(** ** Why the supervisor ends *)

Lemma idle_spec (st : state) :
  idle st = true -> timers st = [] /\ forall c, ~ runs (children st) c.
Proof.
  unfold idle. destruct (timers st); [|discriminate].
  intros Hf. split; [reflexivity|]. intros c [ch [Hl Hr]].
  rewrite forallb_forall in Hf.
  assert (Hin : In ch (children st)).
  { apply list_elem_of_In, list_elem_of_lookup. eauto. }
  apply Hf in Hin. rewrite Hr in Hin. discriminate Hin.
Qed.

(** In a run, a turn of the event loop ends the supervisor in six cases
    only: a child ends with a code other than 0 and [exitOnError] is set
    (status 0); a child ends when [starts] has reached [maxRetries] and
    more than [max] seconds have passed since [startTime] (status 1); the
    relaunch timer fires and [attempts] exceeds a [maxRestarts] that is not
    negative (status 0); nothing is left to wait for (status 0); the
    process of a child object could not be spawned (status 1); another
    ['error'] event happens, which nothing handles (status 1). *)
Theorem exit_causes (o : Options) (now t : Z) (evs : list (Z * event))
    (e : event) (s : Z) :
  let st := run o evs (start o now) in
  exited st = None ->
  exited (step o t e st) = Some s ->
  (s = 0 /\ exists c code,
      e = ChildExit c code /\ code_nonzero code = true /\
      exitOnError o = true)
  \/ (s = 1 /\ exists c code,
        e = ChildExit c code /\
        code_nonzero code && exitOnError o = false /\
        (maxRetries o <= inject_Z (starts st))%Q /\
        default 0 (startTime st) + max * 1000 < t)
  \/ (s = 0 /\ exists i m,
        e = TimerFired i /\ maxRestarts o = Some m /\
        (0 <= m)%Q /\ (m < inject_Z (attempts st + 1))%Q)
  \/ (s = 0 /\ e = LoopEmpty /\ timers st = [] /\
      forall c, ~ runs (children st) c)
  \/ (s = 1 /\ exists c, e = SpawnFailed c /\ runs (children st) c)
  \/ (s = 1 /\ e = ErrorEvent).
Proof.
  intros st He Hs.
  destruct (one_child_run o now evs) as [[c0 [Hc0 _]] _]. fold st in Hc0.
  revert Hs.
  turn_cases o t e st; intros Hs;
    try (project; congruence);
    try (unfold delete_child_pid in Hs; project; rewrite Hc0 in Hs; project;
         congruence);
    try (unfold open_window in Hs; project; destruct (startTime st); project;
         congruence).
  - (* exitOnError *)
    left. split; [cbn in Hs; congruence|]. eauto.
  - (* the restart storm *)
    right. left. split; [cbn in Hs; congruence|].
    exists c, code. split; [reflexivity|]. split; [assumption|].
    split.
    + apply Qle_bool_iff. assumption.
    + match goal with H : window_over _ _ = true |- _ =>
        unfold window_over in H; apply Z.ltb_lt in H end.
      lia.
  - (* the cap *)
    right. right. left. split; [cbn in Hs; congruence|].
    match goal with H : restarts_exceeded _ _ = true |- _ =>
      unfold restarts_exceeded in H; project;
      destruct (maxRestarts o) as [m|] eqn:Hm; [|discriminate H];
      apply andb_prop in H as [Hx1 Hx2] end.
    exists i, m. split; [reflexivity|]. split; [reflexivity|].
    split; [apply Qle_bool_iff; exact Hx2|].
    apply negb_true_iff in Hx1. apply Qnot_le_lt. intros Hle.
    apply Qle_bool_iff in Hle. congruence.
  - (* the loop is empty *)
    right. right. right. left. split; [cbn in Hs; congruence|].
    split; [reflexivity|]. apply idle_spec. assumption.
  - (* the spawn failed *)
    do 4 right. left. split; [cbn in Hs; congruence|].
    exists c. split; [reflexivity|]. exists ch. auto.
  - (* an error that nothing handles *)
    do 5 right. split; [cbn in Hs; congruence|reflexivity].
Qed.

Lemma exit_causes_witness :
  (1 = 0 /\ exists c code,
      SpawnFailed 0 = ChildExit c code /\ code_nonzero code = true /\
      exitOnError default_options = true)
  \/ (1 = 1 /\ exists c code,
        SpawnFailed 0 = ChildExit c code /\
        code_nonzero code && exitOnError default_options = false /\
        (maxRetries default_options <=
         inject_Z (starts (run default_options [] (start default_options 0))))%Q /\
        default 0 (startTime (run default_options [] (start default_options 0))) +
        max * 1000 < 0)
  \/ (1 = 0 /\ exists i m,
        SpawnFailed 0 = TimerFired i /\
        maxRestarts default_options = Some m /\
        (0 <= m)%Q /\
        (m < inject_Z
               (attempts (run default_options [] (start default_options 0)) + 1))%Q)
  \/ (1 = 0 /\ SpawnFailed 0 = LoopEmpty /\
      timers (run default_options [] (start default_options 0)) = [] /\
      forall c, ~ runs (children (run default_options []
                                    (start default_options 0))) c)
  \/ (1 = 1 /\ exists c,
        SpawnFailed 0 = SpawnFailed c /\
        runs (children (run default_options [] (start default_options 0))) c)
  \/ (1 = 1 /\ SpawnFailed 0 = ErrorEvent).
Proof.
  apply (exit_causes default_options 0 0 [] (SpawnFailed 0) 1);
    vm_compute; reflexivity.
Defined.

(** ** What is written on the streams *)

Lemma written_app (s : stream) (a b : list effect) :
  written s (a ++ b) = written s a ++ written s b.
Proof.
  induction a as [|e a IH]; [reflexivity|].
  cbn [app written]. destruct (writes_on s e); cbn [app]; rewrite IH;
    reflexivity.
Qed.

(** Nothing is forwarded once the supervisor has ended. *)
Lemma forwarded_exited (o : Options) (s : stream) (evs : list (Z * event))
    (st : state) (status : Z) :
  exited st = Some status -> forwarded_run o s evs st = [].
Proof.
  intros He. induction evs as [|[now e] evs IH]; [reflexivity|].
  cbn [forwarded_run]. rewrite (step_exited _ _ _ _ status) by exact He.
  rewrite IH. unfold forwarded. rewrite He. reflexivity.
Qed.

(** What a turn adds to a stream: what it forwards, and then, on the
    standard error stream and when the turn ends the supervisor, at most
    one message of the supervisor itself. *)
Lemma written_step (o : Options) (now : Z) (e : event) (st : state)
    (s : stream) :
  one_child st -> exited st = None ->
  exists last,
    written s (trace (step o now e st)) =
      written s (trace st) ++ forwarded s e st ++ last
    /\ last_words last
    /\ (last = [] \/ (s = Stderr /\ exited (step o now e st) <> None)).
Proof.
  intros [[c0 [Hc0 _]] _] He. unfold forwarded, last_words. rewrite He.
  turn_cases o now e st; try congruence.
  - (* nothing *)
    exists []. rewrite !app_nil_r. split; [|auto].
    match goal with H : _ \/ _ |- _ => destruct H as [Hx|Hx] end;
      [congruence|].
    destruct e; cbn [ignored] in Hx; try (rewrite app_nil_r; reflexivity).
    rewrite Hx, app_nil_r. reflexivity.
  - (* an exit that is not listened to *)
    exists []. project. rewrite !app_nil_r. auto.
  - (* exitOnError *)
    fields. rewrite !written_app. destruct s; cbn [written writes_on app];
      rewrite ?app_nil_r.
    + exists []. rewrite app_nil_r. auto.
    + eexists. split; [reflexivity|]. split; [eauto|].
      right. split; [reflexivity|discriminate].
  - (* the restart storm *)
    fields. rewrite !written_app. destruct s; cbn [written writes_on app];
      rewrite ?app_nil_r.
    + exists []. rewrite app_nil_r. auto.
    + eexists. split; [reflexivity|]. split; [eauto|].
      right. split; [reflexivity|discriminate].
  - (* a restart is scheduled *)
    exists []. fields. rewrite !written_app. cbn [written writes_on app].
    rewrite !app_nil_r. auto.
  - (* data *)
    exists []. match goal with H : children st !! _ = Some _ |- _ =>
                 rewrite H end.
    project. rewrite written_app. cbn [written writes_on].
    destruct (stream_eqb s0 s); rewrite !app_nil_r; auto.
  - (* the window timer fires *)
    exists []. project. rewrite !app_nil_r. auto.
  - (* the cap stops the relaunch *)
    fields. rewrite !written_app. destruct s; cbn [written writes_on app];
      rewrite ?app_nil_r.
    + exists []. rewrite app_nil_r. auto.
    + eexists. split; [reflexivity|]. split; [eauto|].
      right. split; [reflexivity|discriminate].
  - (* the relaunch *)
    exists []. fields; rewrite !written_app; cbn [written writes_on app];
      rewrite !app_nil_r; auto.
  - (* a signal *)
    exists []. project. rewrite !written_app. cbn [written writes_on app].
    rewrite !app_nil_r. auto.
  - (* the loop is empty *)
    exists []. fields. rewrite !written_app. cbn [written writes_on app].
    rewrite !app_nil_r. auto.
  - (* the spawn failed *)
    fields. rewrite !written_app. destruct s; cbn [written writes_on app];
      rewrite ?app_nil_r.
    + exists []. rewrite app_nil_r. auto.
    + eexists. split; [reflexivity|]. split; [auto|].
      right. split; [reflexivity|discriminate].
  - (* an error that nothing handles *)
    fields. rewrite !written_app. destruct s; cbn [written writes_on app];
      rewrite ?app_nil_r.
    + exists []. rewrite app_nil_r. auto.
    + eexists. split; [reflexivity|]. split; [auto|].
      right. split; [reflexivity|discriminate].
Qed.

Lemma written_run (o : Options) (s : stream) (evs : list (Z * event))
    (st : state) :
  one_child st -> exited st = None ->
  exists last,
    written s (trace (run o evs st)) =
      written s (trace st) ++ forwarded_run o s evs st ++ last
    /\ last_words last
    /\ (last = [] \/ (s = Stderr /\ exited (run o evs st) <> None)).
Proof.
  revert st. induction evs as [|[now e] evs IH]; intros st H1 He.
  - exists []. cbn. rewrite app_nil_r. unfold last_words. auto.
  - cbn [run forwarded_run].
    destruct (written_step o now e st s H1 He) as (last & Hw & Hl & Hs).
    destruct (exited (step o now e st)) as [status|] eqn:Hx.
    + rewrite (run_exited _ _ _ status) by exact Hx.
      rewrite (forwarded_exited _ _ _ _ status) by exact Hx.
      exists last. rewrite app_nil_r. split; [exact Hw|]. split; [exact Hl|].
      destruct Hs as [Hs|[Hs _]]; [left; exact Hs|].
      right. split; [exact Hs|]. rewrite Hx. discriminate.
    + assert (last = []) as -> by (destruct Hs as [Hs|[_ Hs]]; congruence).
      rewrite app_nil_r in Hw.
      destruct (IH (step o now e st) (one_child_step o now e st H1) Hx)
        as (last' & Hw' & Hl' & Hs').
      exists last'. rewrite Hw', Hw, <- !app_assoc.
      split; [reflexivity|]. split; assumption.
Qed.

(** In a run, what is put on the standard output stream is, in the order
    of the events, the chunks that launched children wrote on their
    standard output, each decoded and encoded again, and nothing else.
    What is put on the standard error stream is the same for the chunks of
    their standard error; and after them, when the supervisor has ended,
    at most one thing of its own: the message of the [console.error] that
    comes before a [process.exit], or the report of an error that nothing
    handles. *)
Theorem output_in_arrival_order (o : Options) (now : Z)
    (evs : list (Z * event)) :
  written Stdout (trace (run o evs (start o now))) =
    forwarded_run o Stdout evs (start o now)
  /\ exists last,
       written Stderr (trace (run o evs (start o now))) =
         forwarded_run o Stderr evs (start o now) ++ last
       /\ last_words last
       /\ (exited (run o evs (start o now)) = None -> last = []).
Proof.
  assert (Hs : forall s, written s (trace (start o now)) = []).
  { intros s. unfold start. rewrite launch_eq by reflexivity.
    destruct s; reflexivity. }
  split.
  - destruct (written_run o Stdout evs (start o now) (one_child_start o now)
                eq_refl) as (last & Hw & _ & [-> | [Hx _]]);
      [|discriminate Hx].
    rewrite Hw, Hs, app_nil_r. reflexivity.
  - destruct (written_run o Stderr evs (start o now) (one_child_start o now)
                eq_refl) as (last & Hw & Hl & Hx).
    exists last. rewrite Hw, Hs. split; [reflexivity|]. split; [exact Hl|].
    intros He. destruct Hx as [Hx|[_ Hx]]; [exact Hx|congruence].
Qed.

(** A child that ends with a code other than 0 after it has written on
    both streams, with [exitOnError] set: the chunks are forwarded, then
    the supervisor says why it ends, on the standard error stream. *)
Example output_then_last_words :
  written Stdout
    (trace (run strict_options
              [(5, ChildData 0 Stdout [0x6F; 0x6B]);
               (6, ChildData 0 Stderr [0x6E; 0x6F]);
               (10, ChildExit 0 (Some 2))]
              (start strict_options 0))) =
    [StreamWrite Stdout [0x6F; 0x6B]]
  /\ written Stderr
       (trace (run strict_options
                 [(5, ChildData 0 Stdout [0x6F; 0x6B]);
                  (6, ChildData 0 Stderr [0x6E; 0x6F]);
                  (10, ChildExit 0 (Some 2))]
                 (start strict_options 0))) =
     [StreamWrite Stderr [0x6E; 0x6F];
      ConsoleError "deepstream exited with error code 2"].
Proof. split; vm_compute; reflexivity. Qed.

(** * Properties of the service module *)

(** How a trace of each request begins. *)
Lemma behaves_done_inv tr : behaves Done tr -> tr = [].
Proof. inversion 1. reflexivity. Qed.

Lemma behaves_uncaught_inv error tr :
  behaves (Uncaught error) tr -> tr = [DidThrow error].
Proof. inversion 1. reflexivity. Qed.

Lemma behaves_existsSync_inv path k tr :
  behaves (FsExistsSync path k) tr ->
  exists b tr', tr = DidExistsSync path b :: tr' /\ behaves (k b) tr'.
Proof. inversion 1; subst. eauto. Qed.

Lemma behaves_exists_inv path k tr :
  behaves (FsExists path k) tr ->
  exists b tr', tr = DidExists path b :: tr' /\ behaves (k b) tr'.
Proof. inversion 1; subst. eauto. Qed.

Lemma behaves_unlink_inv path k tr :
  behaves (FsUnlink path k) tr ->
  exists err tr', tr = DidUnlink path err :: tr' /\ behaves (k err) tr'.
Proof. inversion 1; subst. eauto. Qed.

Lemma behaves_writeFile_inv path data k tr :
  behaves (FsWriteFile path data k) tr ->
  exists err tr',
    tr = DidWriteFile path data err :: tr' /\ behaves (k err) tr'.
Proof. inversion 1; subst. eauto. Qed.

Lemma behaves_chmod_inv path mode k tr :
  behaves (FsChmod path mode k) tr ->
  exists err tr', tr = DidChmod path mode err :: tr' /\ behaves (k err) tr'.
Proof. inversion 1; subst. eauto. Qed.

Lemma behaves_exec_inv cmd k tr :
  behaves (ChildExec cmd k) tr ->
  exists r tr', tr = DidExec cmd r :: tr' /\ behaves (k r) tr'.
Proof. inversion 1; subst. eauto. Qed.

Lemma behaves_log_inv msg k tr :
  behaves (ConsoleLog msg k) tr ->
  exists tr', tr = DidLog msg :: tr' /\ behaves k tr'.
Proof. inversion 1; subst. eauto. Qed.

Lemma behaves_callback_inv err res k tr :
  behaves (Callback err res k) tr ->
  exists tr', tr = DidCallback err res :: tr' /\ behaves k tr'.
Proof. inversion 1; subst. eauto. Qed.

(** Every call has a trace on every host. *)
Lemma behaves_perform (h : host) (t : io) : behaves t (perform h t).
Proof. induction t; cbn [perform]; constructor; auto. Qed.

(** Follows a call along its trace: every request of the tree is matched
    with the action of the trace, every test is split. *)
Ltac follow :=
  repeat match goal with
         | H : behaves Done _ |- _ => apply behaves_done_inv in H; subst
         | H : behaves (Uncaught _) _ |- _ =>
             apply behaves_uncaught_inv in H; subst
         | H : behaves (FsExistsSync _ _) _ |- _ =>
             apply behaves_existsSync_inv in H as (? & ? & -> & H);
             cbv beta in H
         | H : behaves (FsExists _ _) _ |- _ =>
             apply behaves_exists_inv in H as (? & ? & -> & H);
             cbv beta in H
         | H : behaves (FsUnlink _ _) _ |- _ =>
             apply behaves_unlink_inv in H as (? & ? & -> & H);
             cbv beta in H
         | H : behaves (FsWriteFile _ _ _) _ |- _ =>
             apply behaves_writeFile_inv in H as (? & ? & -> & H);
             cbv beta in H
         | H : behaves (FsChmod _ _ _) _ |- _ =>
             apply behaves_chmod_inv in H as (? & ? & -> & H);
             cbv beta in H
         | H : behaves (ChildExec _ _) _ |- _ =>
             apply behaves_exec_inv in H as (? & ? & -> & H);
             cbv beta in H
         | H : behaves (ConsoleLog _ _) _ |- _ =>
             apply behaves_log_inv in H as (? & -> & H)
         | H : behaves (Callback _ _ _) _ |- _ =>
             apply behaves_callback_inv in H as (? & -> & H)
         | H : behaves (if ?b then _ else _) _ |- _ => destruct b eqn:?
         | H : behaves (match ?x with _ => _ end) _ |- _ => destruct x eqn:?
         end.

Ltac open_service :=
  cbv beta zeta delta
    [Service.add Service.remove Service.start Service.stop Service.status
     Service.restart Service.hasService Service.hasSystemD Service.hasSystemV
     Service.setupSystemD Service.setupSystemV Service.deleteSystemD
     Service.deleteSystemV Service.report
     ServiceJs.add ServiceJs.remove ServiceJs.run ServiceJs.hasSystemD
     ServiceJs.hasSystemV ServiceJs.setupSystemD ServiceJs.setupSystemV
     ServiceJs.deleteSystemD] in *.

(** ** The option object *)

Lemma get_insert_eq (o : gmap string jsval) (k : string) (v : jsval) :
  get (<[k := v]> o) k = v.
Proof. unfold get. rewrite lookup_insert_eq. reflexivity. Qed.

Lemma get_insert_ne (o : gmap string jsval) (k k' : string) (v : jsval) :
  k <> k' -> get (<[k := v]> o) k' = get o k'.
Proof. intros H. unfold get. rewrite lookup_insert_ne by exact H. reflexivity. Qed.

Ltac gets :=
  repeat first
    [ rewrite get_insert_eq
    | rewrite get_insert_ne by first [discriminate | congruence] ].

(** The two shapes of the object that [add] ends with. *)
Lemma prepare_cases (name : string) (o o' : gmap string jsval) :
  Service.prepare name o = Some o' ->
  exists levels args,
    let o1 :=
      <["runLevels" := JStr levels]>
      (<["group" := js_or (get o "group") (JStr "root")]>
      (<["user" := js_or (get o "user") (JStr "root")]>
      (<["logDir" := js_or (get o "logDir") (JStr "/var/log/deepstream")]>
      (<["exec" := get o "exec"]>
      (<["pidFile" := js_or (get o "pidFile")
                        (JStr ("/var/run/" +:+ name +:+ ".pid"))]>
      (<["name" := JStr name]> o)))))) in
    (o' = <["deepstreamArgs" := JStr args]> o1
     \/ o' = <["deepstreamArgs" := JStr args]>
               (<["programArgs" := JArr []]> o1))
    /\ (if truthy (get o "runLevels") then
          exists l, get o "runLevels" = JArr l /\ levels = join " " l
        else levels = "2 3 4 5")
    /\ args = join " " (concat1 [JStr "daemon"]
                          (if truthy (get o "programArgs")
                           then get o "programArgs" else JArr [])).
Proof.
  unfold Service.prepare. cbv zeta. gets.
  destruct (truthy (get o "runLevels")) eqn:Hr; cbn [negb].
  - destruct (get o "runLevels") as [| | | | |l|] eqn:Hl;
      try (intros H; discriminate H).
    cbn [mbind option_bind]. gets.
    destruct (truthy (get o "programArgs")) eqn:Hp; cbn [negb];
      intros H; injection H as <-; exists (join " " l); eexists;
      (split; [|split; [eauto|]]); gets; try rewrite Hp.
    + left. reflexivity.
    + reflexivity.
    + right. reflexivity.
    + reflexivity.
  - cbn [mbind option_bind]. gets.
    destruct (truthy (get o "programArgs")) eqn:Hp; cbn [negb];
      intros H; injection H as <-; exists "2 3 4 5"; eexists;
      (split; [|split; [reflexivity|]]); gets; try rewrite Hp.
    + left. reflexivity.
    + reflexivity.
    + right. reflexivity.
    + reflexivity.
Qed.

Lemma prepare_dryRun (name : string) (o o' : gmap string jsval) :
  Service.prepare name o = Some o' -> get o' "dryRun" = get o "dryRun".
Proof.
  intros H. apply prepare_cases in H as [levels [args [[-> | ->] _]]];
    gets; reflexivity.
Qed.

(** [add] throws when [options.runLevels] is set to something that has no
    [join]. *)
Lemma prepare_None (name : string) (o : gmap string jsval) :
  Service.prepare name o = None <->
  truthy (get o "runLevels") = true /\ forall l, get o "runLevels" <> JArr l.
Proof.
  unfold Service.prepare. cbv zeta. gets.
  destruct (truthy (get o "runLevels")) eqn:Hr; cbn [negb].
  - destruct (get o "runLevels") eqn:Hl; cbn [mbind option_bind];
      (split;
       [ intros H; first [discriminate H | split; [reflexivity|discriminate]]
       | intros [_ H]; first [reflexivity | exfalso; eapply H; reflexivity] ]).
  - cbn [mbind option_bind]. split; [discriminate | intros [H _]; discriminate H].
Qed.

Lemma prepare_default (name : string) (o : gmap string jsval) :
  truthy (get o "runLevels") = false ->
  Service.prepare name o = Some (default ∅ (Service.prepare name o)).
Proof.
  intros H. destruct (Service.prepare name o) eqn:E; [reflexivity|].
  apply prepare_None in E as [E _]. congruence.
Qed.

(** [v || w] *)
Lemma truthy_js_or (v w : jsval) :
  truthy w = true -> truthy (js_or v w) = true.
Proof. intros H. unfold js_or. destruct (truthy v) eqn:E; assumption. Qed.

Lemma js_or_truthy (v w : jsval) : truthy v = true -> js_or v w = v.
Proof. intros H. unfold js_or. rewrite H. reflexivity. Qed.

Lemma js_or_falsy (v w : jsval) : truthy v = false -> js_or v w = w.
Proof. intros H. unfold js_or. rewrite H. reflexivity. Qed.

(** After [add] has set [options.logDir], the log files are in it. *)
Lemma prepare_logDir (name : string) (o o' : gmap string jsval) :
  Service.prepare name o = Some o' -> truthy (get o' "logDir") = true.
Proof.
  intros H. apply prepare_cases in H as [levels [args [[-> | ->] _]]];
    gets; apply truthy_js_or; reflexivity.
Qed.

Lemma log_file_set (o : gmap string jsval) (name suffix : string)
    (fallback : jsval) :
  truthy (get o "logDir") = true ->
  Service.log_file o name suffix fallback =
  JStr (toStr (get o "logDir") +:+ "/" +:+ name +:+ suffix).
Proof.
  intros H. unfold Service.log_file, js_and. rewrite H. apply js_or_truthy.
  destruct (toStr (get o "logDir")); reflexivity.
Qed.

(** [deepstreamArgs] begins with [daemon]. *)
Lemma join_daemon (v : jsval) :
  exists rest, join " " (concat1 [JStr "daemon"] v) = "daemon" +:+ rest.
Proof.
  assert (forall l, exists rest,
             join " " (JStr "daemon" :: l) = "daemon" +:+ rest) as H.
  { intros [|x l].
    - exists EmptyString. reflexivity.
    - eexists. unfold join. cbn [join_with elem_str toStr]. reflexivity. }
  destruct v; cbn [concat1 app]; apply H.
Qed.

(** Reads the traces that [follow] has found. *)
Ltac settle :=
  cbn [changes callbacks probes In length] in *;
  repeat match goal with
         | H : _ \/ _ |- _ => destruct H
         | H : False |- _ => destruct H
         | H : negb ?b = true |- _ => apply negb_true_iff in H; subst b
         | H : negb ?b = false |- _ => apply negb_false_iff in H; subst b
         end;
  simplify_eq.

(** ** The callback *)

(** [remove], [start], [stop], [status] and [restart] call the callback
    once, whatever the environment answers; [add] calls it at most once,
    and once when [options.dryRun] is not set and the options are
    accepted. *)
Theorem callback_called_once
    (systemdTemplate initdTemplate : gmap string jsval -> string)
    (name : string) (options : gmap string jsval) (tr : list action) :
  (behaves (Service.remove name) tr -> length (callbacks tr) = 1%nat)
  /\ (behaves (Service.start name) tr -> length (callbacks tr) = 1%nat)
  /\ (behaves (Service.stop name) tr -> length (callbacks tr) = 1%nat)
  /\ (behaves (Service.status name) tr -> length (callbacks tr) = 1%nat)
  /\ (behaves (Service.restart name) tr -> length (callbacks tr) = 1%nat)
  /\ (behaves (Service.add systemdTemplate initdTemplate name options) tr ->
      (length (callbacks tr) <= 1)%nat)
  /\ (behaves (Service.add systemdTemplate initdTemplate name options) tr ->
      truthy (get options "dryRun") = false ->
      is_Some (Service.prepare name options) ->
      length (callbacks tr) = 1%nat).
Proof.
  repeat split; intros H; open_service; follow; try reflexivity;
    cbn [callbacks length]; try lia; intros Hd Hp.
  1-3: match goal with
       | E : Service.prepare _ _ = Some _, D : truthy _ = true |- _ =>
           revert D; gets; rewrite (prepare_dryRun _ _ _ E), Hd; discriminate
       end.
  destruct Hp as [x Hx]. discriminate Hx.
Qed.

Lemma callback_called_once_witness :
  length
    (callbacks
       (perform systemd_host
          (Service.add example_template example_template "deepstream"
             no_options))) = 1%nat.
Proof.
  apply (callback_called_once example_template example_template "deepstream"
           no_options).
  - apply behaves_perform.
  - vm_compute; reflexivity.
  - eexists. apply prepare_default. vm_compute; reflexivity.
Defined.

(** With [options.dryRun] set, [add] changes nothing: no file is written,
    no mode is set, no command is run; the callback is not called, except
    to say that the host has neither systemd nor init.d. *)
Theorem add_dry_run
    (systemdTemplate initdTemplate : gmap string jsval -> string)
    (name : string) (options : gmap string jsval) (tr : list action) :
  truthy (get options "dryRun") = true ->
  behaves (Service.add systemdTemplate initdTemplate name options) tr ->
  changes tr = []
  /\ (callbacks tr = [] \/ callbacks tr = [(JStr unsupported, JUndefined)]).
Proof.
  intros Hd H. open_service. follow;
    try match goal with
        | E : Service.prepare _ _ = Some _, D : truthy _ = false |- _ =>
            revert D; gets; rewrite (prepare_dryRun _ _ _ E), Hd; discriminate
        end;
    settle; auto.
Qed.

Lemma add_dry_run_witness :
  changes
    (perform systemd_host
       (Service.add example_template example_template "deepstream"
          dry_options)) = []
  /\ (callbacks
        (perform systemd_host
           (Service.add example_template example_template "deepstream"
              dry_options)) = []
      \/ callbacks
           (perform systemd_host
              (Service.add example_template example_template "deepstream"
                 dry_options)) = [(JStr unsupported, JUndefined)]).
Proof.
  apply (add_dry_run example_template example_template "deepstream"
           dry_options).
  - vm_compute; reflexivity.
  - apply behaves_perform.
Defined.

(** When the service file is there already, [add] changes nothing and
    tells the callback so; and [add] writes no file that [fs.exists] has
    not reported missing. *)
Theorem add_never_overwrites
    (systemdTemplate initdTemplate : gmap string jsval -> string)
    (name : string) (options : gmap string jsval) (tr : list action) :
  behaves (Service.add systemdTemplate initdTemplate name options) tr ->
  (forall path,
      In (DidExists path true) tr ->
      changes tr = []
      /\ callbacks tr =
         [(JStr "Service already exists, please uninstall first", JUndefined)])
  /\ (forall path data err,
         In (DidWriteFile path data err) tr -> In (DidExists path false) tr).
Proof.
  intros H. open_service. split.
  - intros path Hin. follow; settle; auto.
  - intros path data err Hin. follow; settle; auto 12.
Qed.

Lemma add_never_overwrites_witness :
  changes
    (perform installed_host
       (Service.add example_template example_template "deepstream"
          no_options)) = []
  /\ callbacks
       (perform installed_host
          (Service.add example_template example_template "deepstream"
             no_options)) =
     [(JStr "Service already exists, please uninstall first", JUndefined)].
Proof.
  apply (proj1 (add_never_overwrites example_template example_template
                  "deepstream" no_options _ (behaves_perform _ _))
           "/etc/systemd/system/deepstream.service").
  vm_compute. auto 10.
Defined.

(** [add] stops at the first error: when [fs.writeFile] fails, the mode is
    not set and no command is run; when [fs.chmod] fails, no command is
    run; in both cases the callback receives the error and nothing
    else. *)
Theorem add_stops_at_first_error
    (systemdTemplate initdTemplate : gmap string jsval -> string)
    (name : string) (options : gmap string jsval) (tr : list action) :
  behaves (Service.add systemdTemplate initdTemplate name options) tr ->
  (forall path data e,
      In (DidWriteFile path data (Some e)) tr ->
      changes tr = [DidWriteFile path data (Some e)]
      /\ callbacks tr = [(JErr e, JUndefined)])
  /\ (forall path mode e,
         In (DidChmod path mode (Some e)) tr ->
         exists data,
           changes tr =
             [DidWriteFile path data None; DidChmod path mode (Some e)]
           /\ callbacks tr = [(JErr e, JUndefined)]).
Proof.
  intros H. open_service. split.
  - intros path data e Hin. follow; settle; auto.
  - intros path mode e Hin. follow; settle; eauto.
Qed.

Lemma add_stops_at_first_error_witness :
  changes
    (perform readonly_host
       (Service.add example_template example_template "deepstream"
          no_options)) =
  [DidWriteFile "/etc/systemd/system/deepstream.service" "deepstream daemon"
     (Some "EROFS")]
  /\ callbacks
       (perform readonly_host
          (Service.add example_template example_template "deepstream"
             no_options)) = [(JErr "EROFS", JUndefined)].
Proof.
  apply (proj1 (add_stops_at_first_error example_template example_template
                  "deepstream" no_options _ (behaves_perform _ _))).
  vm_compute. auto 10.
Defined.

(** ** What is changed *)

(** [add] changes the service file only: it writes and sets the mode of
    [/etc/systemd/system/<name>.service] or of [/etc/init.d/<name>], the
    mode is 755, the only command it runs is [systemctl daemon-reload],
    and it removes no file. *)
Theorem add_changes_service_file
    (systemdTemplate initdTemplate : gmap string jsval -> string)
    (name : string) (options : gmap string jsval) (tr : list action)
    (a : action) :
  behaves (Service.add systemdTemplate initdTemplate name options) tr ->
  In a (changes tr) ->
  exists path,
    (path = "/etc/systemd/system/" +:+ name +:+ ".service"
     \/ path = "/etc/init.d/" +:+ name)
    /\ ((exists data err, a = DidWriteFile path data err)
        \/ (exists err, a = DidChmod path "755" err)
        \/ (exists r,
               a = DidExec "systemctl daemon-reload" r /\
               path = "/etc/systemd/system/" +:+ name +:+ ".service")).
Proof.
  intros H Hin. open_service. follow; settle; eauto 10.
Qed.

Lemma add_changes_service_file_witness :
  exists path,
    (path = "/etc/systemd/system/" +:+ "deepstream" +:+ ".service"
     \/ path = "/etc/init.d/" +:+ "deepstream")
    /\ ((exists data err,
            DidChmod "/etc/systemd/system/deepstream.service" "755" None =
            DidWriteFile path data err)
        \/ (exists err,
               DidChmod "/etc/systemd/system/deepstream.service" "755" None =
               DidChmod path "755" err)
        \/ (exists r,
               DidChmod "/etc/systemd/system/deepstream.service" "755" None =
               DidExec "systemctl daemon-reload" r /\
               path = "/etc/systemd/system/" +:+ "deepstream" +:+ ".service")).
Proof.
  apply (add_changes_service_file example_template example_template
           "deepstream" no_options
           (perform systemd_host
              (Service.add example_template example_template "deepstream"
                 no_options))).
  - apply behaves_perform.
  - vm_compute. auto 10.
Defined.

(** [remove] removes the service file only, and only when [fs.exists] has
    found it; when the file is missing it changes nothing and tells the
    callback so; it runs [systemctl daemon-reload], and nothing else,
    after it has removed the unit file of systemd; it writes nothing. *)
Theorem remove_changes_service_file (name : string) (tr : list action) :
  behaves (Service.remove name) tr ->
  (forall a,
      In a (changes tr) ->
      exists path,
        (path = "/etc/systemd/system/" +:+ name +:+ ".service"
         \/ path = "/etc/init.d/" +:+ name)
        /\ In (DidExists path true) tr
        /\ ((exists err, a = DidUnlink path err)
            \/ (exists r,
                   a = DidExec "systemctl daemon-reload" r /\
                   path = "/etc/systemd/system/" +:+ name +:+ ".service" /\
                   In (DidUnlink path None) tr)))
  /\ (forall path,
         In (DidExists path false) tr ->
         changes tr = []
         /\ callbacks tr =
            [(JStr "Service doesn't exists, nothing to uninstall",
              JUndefined)]).
Proof.
  intros H. open_service. split.
  - intros a Hin. follow; settle;
      match goal with
      | |- context [DidExists ?p true = DidExists _ true] => exists p
      end;
      (split; [auto|]); (split; [auto 10|]); eauto 12.
  - intros path Hin. follow; settle; auto.
Qed.

Lemma remove_changes_service_file_witness :
  changes (perform systemd_host (Service.remove "deepstream")) = []
  /\ callbacks (perform systemd_host (Service.remove "deepstream")) =
     [(JStr "Service doesn't exists, nothing to uninstall", JUndefined)].
Proof.
  apply (proj2 (remove_changes_service_file "deepstream" _
                  (behaves_perform _ _))
           "/etc/systemd/system/deepstream.service").
  vm_compute. auto 10.
Defined.

(** On the same host, the file that [remove] removes is the file that
    [add] writes. *)
Theorem remove_unlinks_what_add_wrote
    (systemdTemplate initdTemplate : gmap string jsval -> string)
    (name : string) (options : gmap string jsval)
    (tra trr : list action) (written removed data : string)
    (errw errr : option string) :
  behaves (Service.add systemdTemplate initdTemplate name options) tra ->
  behaves (Service.remove name) trr ->
  probes tra = probes trr ->
  In (DidWriteFile written data errw) tra ->
  In (DidUnlink removed errr) trr ->
  written = removed.
Proof.
  intros Ha Hr Hp Hw Hu.
  assert ((written = "/etc/systemd/system/" +:+ name +:+ ".service"
           /\ (probes tra = [(systemd_dir, true)]
               \/ probes tra = [(systemd_dir, false); (systemctl, true)]))
          \/ (written = "/etc/init.d/" +:+ name
              /\ probes tra = [(systemd_dir, false); (systemctl, false);
                               (initd_dir, true)])) as A.
  { clear Hr Hp Hu. open_service. follow; settle; cbn [probes]; auto. }
  assert ((removed = "/etc/systemd/system/" +:+ name +:+ ".service"
           /\ (probes trr = [(systemd_dir, true)]
               \/ probes trr = [(systemd_dir, false); (systemctl, true)]))
          \/ (removed = "/etc/init.d/" +:+ name
              /\ probes trr = [(systemd_dir, false); (systemctl, false);
                               (initd_dir, true)])) as R.
  { clear Ha Hp Hw. open_service. follow; settle; cbn [probes]; auto. }
  destruct A as [[-> [A|A]] | [-> A]], R as [[-> [R|R]] | [-> R]];
    try reflexivity; rewrite A, R in Hp; discriminate Hp.
Qed.

Lemma remove_unlinks_what_add_wrote_witness :
  "/etc/systemd/system/deepstream.service" =
  "/etc/systemd/system/deepstream.service".
Proof.
  apply (remove_unlinks_what_add_wrote example_template example_template
           "deepstream" no_options
           (perform systemd_host
              (Service.add example_template example_template "deepstream"
                 no_options))
           (perform installed_host (Service.remove "deepstream"))
           _ _ "deepstream daemon" None None).
  - apply behaves_perform.
  - apply behaves_perform.
  - vm_compute; reflexivity.
  - vm_compute. auto 10.
  - vm_compute. auto 10.
Defined.

(** ** The options of [add] *)

(** [add] throws, before it asks anything of the host, when
    [options.runLevels] is set to a value that is not an array (a string
    of levels, a number); and it throws in no other case. *)
Theorem add_rejects_runLevels
    (systemdTemplate initdTemplate : gmap string jsval -> string)
    (name : string) (options : gmap string jsval) (tr : list action) :
  behaves (Service.add systemdTemplate initdTemplate name options) tr ->
  (truthy (get options "runLevels") = true ->
   (forall l, get options "runLevels" <> JArr l) ->
   tr = [DidThrow "TypeError: options.runLevels.join is not a function"])
  /\ (forall error,
         In (DidThrow error) tr ->
         truthy (get options "runLevels") = true
         /\ forall l, get options "runLevels" <> JArr l).
Proof.
  intros H. unfold Service.add in H.
  destruct (Service.prepare name options) as [o'|] eqn:E.
  - split.
    + intros Ht Hl. assert (Service.prepare name options = None) as E'
        by (apply prepare_None; auto). congruence.
    + intros error Hin. open_service. follow; settle.
  - apply prepare_None in E. split; [|auto].
    intros _ _. follow. reflexivity.
Qed.

Lemma add_rejects_runLevels_witness :
  perform systemd_host
    (Service.add example_template example_template "deepstream" bad_options)
  = [DidThrow "TypeError: options.runLevels.join is not a function"].
Proof.
  apply (proj1 (add_rejects_runLevels example_template example_template
                  "deepstream" bad_options _ (behaves_perform _ _))).
  - vm_compute; reflexivity.
  - intros l. vm_compute. discriminate.
Defined.

(** [add] changes the object it is given: called with no [runLevels], it
    leaves the string [2 3 4 5] there, so that a second call with the same
    object, for any name and whatever the set-up function has added to the
    object, throws. *)
Theorem add_twice_throws
    (systemdTemplate initdTemplate : gmap string jsval -> string)
    (name : string) (options : gmap string jsval) :
  truthy (get options "runLevels") = false ->
  exists o',
    Service.prepare name options = Some o'
    /\ forall name' o'' tr,
         get o'' "runLevels" = get o' "runLevels" ->
         behaves (Service.add systemdTemplate initdTemplate name' o'') tr ->
         tr = [DidThrow "TypeError: options.runLevels.join is not a function"].
Proof.
  intros Hr. destruct (Service.prepare name options) as [o'|] eqn:E.
  - exists o'. split; [reflexivity|]. intros name' o'' tr Hg H.
    apply prepare_cases in E as (levels & args & Ho & Hl & _).
    rewrite Hr in Hl. subst levels.
    assert (get o' "runLevels" = JStr "2 3 4 5") as Hv
      by (destruct Ho as [-> | ->]; gets; reflexivity).
    rewrite Hv in Hg.
    assert (Service.prepare name' o'' = None) as E'.
    { apply prepare_None. rewrite Hg. split; [reflexivity | discriminate]. }
    unfold Service.add in H. rewrite E' in H. follow. reflexivity.
  - apply prepare_None in E as [E _]. congruence.
Qed.

Lemma add_twice_throws_witness :
  exists o',
    Service.prepare "deepstream" no_options = Some o'
    /\ forall name' o'' tr,
         get o'' "runLevels" = get o' "runLevels" ->
         behaves (Service.add example_template example_template name' o'')
           tr ->
         tr = [DidThrow "TypeError: options.runLevels.join is not a function"].
Proof.
  apply (add_twice_throws example_template example_template "deepstream"
           no_options).
  vm_compute; reflexivity.
Defined.

(** The options that the set-up functions and the templates receive:
    [name] is the name of the call; [pidFile], [logDir], [user], [group]
    and [programArgs] are set, to what the caller gave when that is not
    empty, and to the defaults otherwise; [runLevels] is a string;
    [deepstreamArgs] begins with [daemon]; no other option is changed. *)
Theorem add_fills_defaults (name : string) (o o' : gmap string jsval) :
  Service.prepare name o = Some o' ->
  get o' "name" = JStr name
  /\ (forall k,
         In k ["pidFile"; "logDir"; "user"; "group"; "programArgs"] ->
         truthy (get o' k) = true
         /\ (truthy (get o k) = true -> get o' k = get o k))
  /\ (truthy (get o "pidFile") = false ->
      get o' "pidFile" = JStr ("/var/run/" +:+ name +:+ ".pid"))
  /\ (truthy (get o "logDir") = false ->
      get o' "logDir" = JStr "/var/log/deepstream")
  /\ (truthy (get o "user") = false -> get o' "user" = JStr "root")
  /\ (truthy (get o "group") = false -> get o' "group" = JStr "root")
  /\ (truthy (get o "runLevels") = false ->
      get o' "runLevels" = JStr "2 3 4 5")
  /\ (truthy (get o "programArgs") = false ->
      get o' "programArgs" = JArr []
      /\ get o' "deepstreamArgs" = JStr "daemon")
  /\ (exists levels, get o' "runLevels" = JStr levels)
  /\ (exists rest, get o' "deepstreamArgs" = JStr ("daemon" +:+ rest))
  /\ (forall k,
         ~ In k ["name"; "pidFile"; "logDir"; "user"; "group"; "runLevels";
                 "programArgs"; "deepstreamArgs"] ->
         get o' k = get o k).
Proof.
  unfold Service.prepare. cbv zeta. gets. intros H.
  assert (exists levels args pa,
             o' = <["deepstreamArgs" := JStr args]> pa
             /\ (exists rest, args = "daemon" +:+ rest)
             /\ (truthy (get o "runLevels") = false -> levels = "2 3 4 5")
             /\ (truthy (get o "programArgs") = false ->
                 args = "daemon" /\ get pa "programArgs" = JArr [])
             /\ (truthy (get o "programArgs") = true ->
                 get pa "programArgs" = get o "programArgs")
             /\ (forall k, k <> "programArgs" ->
                   get pa k =
                   get (<["runLevels" := JStr levels]>
                        (<["group" := js_or (get o "group") (JStr "root")]>
                        (<["user" := js_or (get o "user") (JStr "root")]>
                        (<["logDir" := js_or (get o "logDir")
                                         (JStr "/var/log/deepstream")]>
                        (<["exec" := get o "exec"]>
                        (<["pidFile" := js_or (get o "pidFile")
                                          (JStr ("/var/run/" +:+ name +:+ ".pid"))]>
                        (<["name" := JStr name]> o))))))) k))
    as (levels & args & pa & -> & Ha & Hl & Hp0 & Hp1 & Hk).
  { destruct (truthy (get o "runLevels")) eqn:Hr; cbn [negb] in H;
      [destruct (get o "runLevels") as [| | | | |l|] eqn:Hg;
         try discriminate H|];
      cbn [mbind option_bind] in H; revert H; gets;
      destruct (truthy (get o "programArgs")) eqn:Hp; cbn [negb];
      intros H; injection H as <-; do 3 eexists;
      (split; [reflexivity|]); gets;
      (split; [apply join_daemon|]);
      (split; [first [discriminate | reflexivity]|]);
      (split; [first [discriminate | intros _; split; gets; reflexivity]|]);
      (split; [first [discriminate | intros _; gets; reflexivity]|]);
      intros k Hne; gets; reflexivity. }
  clear H.
  repeat apply conj.
  - gets. rewrite Hk by discriminate. gets. reflexivity.
  - intros k Hin. cbn [In] in Hin.
    destruct Hin as [<- | [<- | [<- | [<- | [<- | []]]]]]; gets;
      try (rewrite Hk by discriminate; gets;
           split; [apply truthy_js_or; reflexivity | apply js_or_truthy]).
    split; [|exact Hp1].
    destruct (truthy (get o "programArgs")) eqn:E.
    + rewrite Hp1 by reflexivity. exact E.
    + destruct (Hp0 eq_refl) as [_ ->]. reflexivity.
  - intros E. gets. rewrite Hk by discriminate. gets.
    apply js_or_falsy, E.
  - intros E. gets. rewrite Hk by discriminate. gets.
    apply js_or_falsy, E.
  - intros E. gets. rewrite Hk by discriminate. gets.
    apply js_or_falsy, E.
  - intros E. gets. rewrite Hk by discriminate. gets.
    apply js_or_falsy, E.
  - intros E. gets. rewrite Hk by discriminate. gets.
    rewrite (Hl E). reflexivity.
  - intros E. gets. destruct (Hp0 E) as [-> ->]. split; reflexivity.
  - exists levels. gets. rewrite Hk by discriminate. gets. reflexivity.
  - destruct Ha as [rest ->]. exists rest. gets. reflexivity.
  - intros k Hn. cbn [In] in Hn.
    assert (k <> "programArgs") as Hne by (intros ->; apply Hn; auto 10).
    rewrite get_insert_ne by (intros <-; apply Hn; auto 10).
    rewrite Hk by exact Hne.
    repeat (rewrite get_insert_ne by (intros <-; apply Hn; auto 10)).
    destruct (decide (k = "exec")) as [-> | Hx].
    + rewrite get_insert_eq. reflexivity.
    + rewrite get_insert_ne by congruence.
      repeat (rewrite get_insert_ne by (intros <-; apply Hn; auto 10)).
      reflexivity.
Qed.

Lemma add_fills_defaults_witness :
  get (default ∅ (Service.prepare "deepstream" no_options)) "name" =
  JStr "deepstream".
Proof.
  apply (add_fills_defaults "deepstream" no_options).
  apply prepare_default. vm_compute; reflexivity.
Defined.

(** What [add] writes is what the template of the init system makes of
    the options that [add] has prepared, with [stdOut] and [stdErr] in
    [options.logDir]: since [add] always sets [logDir], the fallbacks of
    the set-up functions ([null], [/dev/null], [&1]) are never used. *)
Theorem add_writes_template
    (systemdTemplate initdTemplate : gmap string jsval -> string)
    (name : string) (options : gmap string jsval) (tr : list action)
    (path data : string) (err : option string) :
  behaves (Service.add systemdTemplate initdTemplate name options) tr ->
  In (DidWriteFile path data err) tr ->
  exists o',
    Service.prepare name options = Some o'
    /\ let dir := toStr (get o' "logDir") in
       let o2 :=
         <["stdErr" := JStr (dir +:+ "/" +:+ name +:+ "-err.log")]>
           (<["stdOut" := JStr (dir +:+ "/" +:+ name +:+ "-out.log")]> o') in
       (path = "/etc/systemd/system/" +:+ name +:+ ".service"
        /\ data = systemdTemplate o2)
       \/ (path = "/etc/init.d/" +:+ name /\ data = initdTemplate o2).
Proof.
  intros H Hin. unfold Service.add in H.
  destruct (Service.prepare name options) as [o'|] eqn:E;
    [|follow; settle].
  exists o'. split; [reflexivity|]. cbv zeta.
  pose proof (prepare_logDir _ _ _ E) as Hd.
  open_service.
  rewrite !(log_file_set (<["stdOut" := _]> o')) in H by (gets; exact Hd).
  rewrite !(log_file_set o') in H by exact Hd.
  revert H. gets. intros H.
  follow; settle; auto.
Qed.

Lemma add_writes_template_witness :
  exists o',
    Service.prepare "deepstream" no_options = Some o'
    /\ let dir := toStr (get o' "logDir") in
       let o2 :=
         <["stdErr" := JStr (dir +:+ "/" +:+ "deepstream" +:+ "-err.log")]>
           (<["stdOut" := JStr (dir +:+ "/" +:+ "deepstream" +:+ "-out.log")]>
              o') in
       ("/etc/systemd/system/deepstream.service" =
        "/etc/systemd/system/" +:+ "deepstream" +:+ ".service"
        /\ "deepstream daemon" = example_template o2)
       \/ ("/etc/systemd/system/deepstream.service" =
           "/etc/init.d/" +:+ "deepstream"
           /\ "deepstream daemon" = example_template o2).
Proof.
  apply (add_writes_template example_template example_template "deepstream"
           no_options
           (perform systemd_host
              (Service.add example_template example_template "deepstream"
                 no_options))
           _ _ None).
  - apply behaves_perform.
  - vm_compute. auto 10.
Defined.

(** ** Driving the service *)

(** [start], [stop], [status] and [restart] run [service <name> <verb>],
    once, and nothing else; the callback receives the output of the
    command, and an error exactly when the command failed or wrote on its
    error stream: the error of [exec] if there is one, the error output
    otherwise.  Without an init system nothing is run. *)
Theorem service_commands (name : string) (tr : list action) :
  (behaves (Service.start name) tr ->
   drives ("service " +:+ name +:+ " start") tr)
  /\ (behaves (Service.stop name) tr ->
      drives ("service " +:+ name +:+ " stop") tr)
  /\ (behaves (Service.status name) tr ->
      drives ("service " +:+ name +:+ " status") tr)
  /\ (behaves (Service.restart name) tr ->
      drives ("service " +:+ name +:+ " restart") tr).
Proof.
  assert (forall r,
             truthy (js_or (err_val (exec_err r)) (JStr (exec_stderr r)))
             = false <-> exec_err r = None /\ exec_stderr r = EmptyString)
    as Hr.
  { intros [[e|] out [|a s]]; cbn; split; intros H; try discriminate H;
      try (destruct H; discriminate); auto. }
  repeat apply conj; intros H; open_service; follow; settle; unfold drives;
    first [ right; repeat apply conj; reflexivity
          | left; do 2 eexists;
            (split; [reflexivity|]); (split; [reflexivity|]);
            (split; [apply Hr|]);
            (split; [intros ->; reflexivity | intros m ->; reflexivity]) ].
Qed.

Lemma service_commands_witness :
  drives "service deepstream start"
    (perform systemd_host (Service.start "deepstream")).
Proof.
  apply (proj1 (service_commands "deepstream" _)). apply behaves_perform.
Defined.

(** ** The init system *)

(** Every function looks for [/usr/lib/systemd/system] first, for
    [/bin/systemctl] only when that is missing, and for [/etc/init.d] only
    when both are missing. *)
Theorem probes_in_order
    (systemdTemplate initdTemplate : gmap string jsval -> string)
    (name : string) (options : gmap string jsval) (tr : list action) :
  (behaves (Service.add systemdTemplate initdTemplate name options) tr ->
   is_Some (Service.prepare name options) -> probed tr)
  /\ (behaves (Service.remove name) tr -> probed tr)
  /\ (behaves (Service.start name) tr -> probed tr)
  /\ (behaves (Service.stop name) tr -> probed tr)
  /\ (behaves (Service.status name) tr -> probed tr)
  /\ (behaves (Service.restart name) tr -> probed tr).
Proof.
  repeat apply conj; intros H; open_service; follow; unfold probed;
    cbn [probes]; eauto;
    intros [? ?]; discriminate.
Qed.

Lemma probes_in_order_witness :
  probed (perform sysv_host (Service.remove "deepstream")).
Proof.
  apply (proj1 (proj2 (probes_in_order example_template example_template
                         "deepstream" no_options _))).
  apply behaves_perform.
Defined.

(** systemd comes first: [add] and [remove] touch the script in
    [/etc/init.d] only on a host where both tests for systemd have failed
    and [/etc/init.d] is there. *)
Theorem systemd_preferred
    (systemdTemplate initdTemplate : gmap string jsval -> string)
    (name : string) (options : gmap string jsval) (tr : list action)
    (a : action) :
  behaves (Service.add systemdTemplate initdTemplate name options) tr
  \/ behaves (Service.remove name) tr ->
  In a tr ->
  (exists data err, a = DidWriteFile ("/etc/init.d/" +:+ name) data err)
  \/ (exists mode err, a = DidChmod ("/etc/init.d/" +:+ name) mode err)
  \/ (exists err, a = DidUnlink ("/etc/init.d/" +:+ name) err) ->
  probes tr = [(systemd_dir, false); (systemctl, false); (initd_dir, true)].
Proof.
  intros [H | H] Hin Ha; open_service;
    destruct Ha as [(? & ? & ->) | [(? & ? & ->) | (? & ->)]];
    follow; settle; try reflexivity.
Qed.

Lemma systemd_preferred_witness :
  probes
    (perform sysv_host
       (Service.add example_template example_template "deepstream"
          no_options)) =
  [(systemd_dir, false); (systemctl, false); (initd_dir, true)].
Proof.
  apply (systemd_preferred example_template example_template "deepstream"
           no_options _
           (DidWriteFile "/etc/init.d/deepstream" "deepstream daemon" None)).
  - left. apply behaves_perform.
  - vm_compute. auto 10.
  - left. exists "deepstream daemon", None. reflexivity.
Defined.



(** ** The earlier file *)

(** [add] of [service.js] only prints: the set-up functions return before
    they reach the file system, so that nothing is tested, written or run,
    and the callback is never called. *)
Theorem earlier_add_only_logs
    (render : string -> gmap string jsval -> string)
    (systemdTemplate initdTemplate : string)
    (name : string) (options : gmap string jsval) (tr : list action)
    (a : action) :
  behaves (ServiceJs.add render systemdTemplate initdTemplate name options)
    tr ->
  In a tr ->
  (exists msg, a = DidLog msg)
  \/ a = DidThrow "TypeError: options.runLevels.join is not a function".
Proof.
  intros H Hin. open_service. follow; settle; eauto.
Qed.

Lemma earlier_add_only_logs_witness :
  (exists msg, DidLog "unit" = DidLog msg)
  \/ DidLog "unit" =
     DidThrow "TypeError: options.runLevels.join is not a function".
Proof.
  apply (earlier_add_only_logs (fun template _ => template) "unit" "script"
           "deepstream" no_options
           (perform bare_host
              (ServiceJs.add (fun template _ => template) "unit" "script"
                 "deepstream" no_options))).
  - apply behaves_perform.
  - vm_compute. auto 10.
Defined.

(** [remove] of [service.js]: the second declaration of [deleteSystemD]
    is the one that runs, so that on a host with systemd the file that is
    removed is the script in [/etc/init.d]; on a host with init.d only the
    call throws, since [deleteSystemV] is not declared, and the callback is
    not called. *)
Theorem earlier_remove (name : string) (tr : list action) :
  behaves (ServiceJs.remove name) tr ->
  (forall a, In a (changes tr) ->
     exists err, a = DidUnlink ("/etc/init.d/" +:+ name) err)
  /\ (In (initd_dir, true) (probes tr) ->
      tr = [DidExistsSync systemd_dir false; DidExistsSync systemctl false;
            DidExistsSync initd_dir true;
            DidThrow "ReferenceError: deleteSystemV is not defined"])
  /\ (forall path err, In (DidUnlink path err) tr ->
        In (systemd_dir, true) (probes tr)
        \/ In (systemctl, true) (probes tr)).
Proof.
  intros H. open_service. split; [|split].
  - intros a Hin. follow; settle; eauto.
  - intros Hin. follow; settle; reflexivity.
  - intros path err Hin. follow; settle; cbn [In]; auto.
Qed.

Lemma earlier_remove_witness :
  perform sysv_host (ServiceJs.remove "deepstream") =
  [DidExistsSync systemd_dir false; DidExistsSync systemctl false;
   DidExistsSync initd_dir true;
   DidThrow "ReferenceError: deleteSystemV is not defined"].
Proof.
  apply (proj1 (proj2 (earlier_remove "deepstream" _ (behaves_perform _ _)))).
  vm_compute. auto 10.
Defined.

(** [run] of [service.js] changes nothing, and calls the callback only to
    say that the host is not supported. *)
Theorem earlier_run (name : string) (tr : list action) :
  behaves (ServiceJs.run name) tr ->
  changes tr = []
  /\ (callbacks tr = [] /\ In true (probes tr).*2
      \/ callbacks tr = [(JStr unsupported, JUndefined)]
         /\ probes tr =
            [(systemd_dir, false); (systemctl, false); (initd_dir, false)]).
Proof.
  intros H. open_service. follow; settle; (split; [reflexivity|]);
    first [ right; split; reflexivity | left; split; [reflexivity|] ];
    cbn; auto.
Qed.

Lemma earlier_run_witness :
  changes (perform systemd_host (ServiceJs.run "deepstream")) = []
  /\ (callbacks (perform systemd_host (ServiceJs.run "deepstream")) = []
      /\ In true (probes (perform systemd_host (ServiceJs.run "deepstream"))).*2
      \/ callbacks (perform systemd_host (ServiceJs.run "deepstream")) =
         [(JStr unsupported, JUndefined)]
         /\ probes (perform systemd_host (ServiceJs.run "deepstream")) =
            [(systemd_dir, false); (systemctl, false); (initd_dir, false)]).
Proof.
  apply (earlier_run "deepstream"). apply behaves_perform.
Defined.
